(** * django_q_signals: the signal-to-task bridge

    A shallow embedding of [src/django_q_signals/__init__.py]: the
    [async_receiver] registrar, the wrapper it connects to Django signals,
    the task function it installs in the handler's module, and the
    serialisation of signal keyword arguments. *)

From Stdlib Require Import ZArith Ascii String.
From stdpp Require Import base decidable option list strings gmap fin_maps.

Open Scope string_scope.

(** ** Python values *)

(** A model class, as far as the library looks at it:
    [cls._meta.app_label] and [cls._meta.model_name]. *)
Record ModelClass := MkModel { app_label : string; model_name : string }.

Global Instance ModelClass_eq_dec : EqDecision ModelClass.
Proof. solve_decision. Defined.

(** The values that travel through signal keyword arguments ([Any] in the
    source).  The first eight kinds are the ones [isinstance] admits in
    [_serialize_signal_kwargs]; the other four stand for everything else.
    - [VFloat] carries the bit pattern of the double; no arithmetic is done
      on it.
    - [VFrozenset] lists the members in the set's iteration order, which
      Python leaves unspecified: two frozensets are the same set when they
      have the same members ([same_members]).
    - [VInstance cls pk fields] is a model instance; [pk] is what
      [instance.pk] returns.
    - [VObject ty] is an instance of some plain class [ty]: truthy, hashable
      by identity, not iterable, without [_meta]. *)
#[warnings="-register-all"] Inductive pyval :=
| VNone
| VBool (b : bool)
| VInt (n : Z)
| VFloat (bits : Z)
| VStr (s : string)
| VList (xs : list pyval)
| VTuple (xs : list pyval)
| VDict (items : list (pyval * pyval))
| VFrozenset (members : list pyval)
| VModelClass (cls : ModelClass)
| VInstance (cls : ModelClass) (pk : pyval) (fields : list (string * pyval))
| VObject (ty : string).

Global Instance pyval_eq_dec : EqDecision pyval.
Proof.
  unfold EqDecision, Decision. fix go 1. intros a b.
  pose proof (go_list := @list_eq_dec pyval go).
  pose proof (go_items := @list_eq_dec (pyval * pyval)
                            (@prod_eq_dec _ go _ go)).
  pose proof (go_fields := @list_eq_dec (string * pyval)
                             (@prod_eq_dec _ _ _ go)).
  unfold Decision in *.
  destruct a, b; try (right; discriminate).
  - left; reflexivity.
  - destruct (decide (b = b0)) as [->|]; [left; reflexivity | right; congruence].
  - destruct (decide (n = n0)) as [->|]; [left; reflexivity | right; congruence].
  - destruct (decide (bits = bits0)) as [->|]; [left; reflexivity | right; congruence].
  - destruct (decide (s = s0)) as [->|]; [left; reflexivity | right; congruence].
  - destruct (go_list xs xs0) as [->|]; [left; reflexivity | right; congruence].
  - destruct (go_list xs xs0) as [->|]; [left; reflexivity | right; congruence].
  - destruct (go_items items items0) as [->|]; [left; reflexivity | right; congruence].
  - destruct (go_list members members0) as [->|]; [left; reflexivity | right; congruence].
  - destruct (decide (cls = cls0)) as [->|]; [left; reflexivity | right; congruence].
  - destruct (decide (cls = cls0)) as [->|]; [|right; congruence].
    destruct (go a b) as [->|]; [|right; congruence].
    destruct (go_fields fields fields0) as [->|]; [left; reflexivity | right; congruence].
  - destruct (decide (ty = ty0)) as [->|]; [left; reflexivity | right; congruence].
Defined.

(** ** Exceptions and results *)

(** The exception classes the code can meet.  [LookupError] is what
    [apps.get_model] raises, [DoesNotExist] what [objects.get] raises when
    no row matches; [OtherError] covers failures of the collaborators that
    the library neither raises nor catches itself. *)
Inductive exn :=
| TypeError
| ValueError
| AttributeError
| KeyError
| LookupError
| DoesNotExist
| OtherError (msg : string).

Global Instance exn_eq_dec : EqDecision exn.
Proof. solve_decision. Defined.

(** A call either returns a value or raises. *)
Inductive outcome (A : Type) :=
| Ok (a : A)
| Raise (e : exn).
Arguments Ok {A} a.
Arguments Raise {A} e.

Global Instance outcome_ret : MRet outcome := λ A a, Ok a.
Global Instance outcome_bind : MBind outcome := λ A B f m,
  match m with
  | Ok a => f a
  | Raise e => Raise e
  end.

Definition returns {A} (m : outcome A) : bool :=
  match m with Ok _ => true | Raise _ => false end.

(** ** The Python built-ins the library calls *)

Module Py.

(** [bool(v)], the test behind [if v] and [v and ...].  Model classes and
    instances are truthy: Django's [Model] and [ModelBase] define neither
    [__bool__] nor [__len__]. *)
Definition truthy (v : pyval) : bool :=
  match v with
  | VNone => false
  | VBool b => b
  | VInt n => negb (n =? 0)%Z
  | VFloat bits => negb ((bits =? 0)%Z || (bits =? 2 ^ 63)%Z)
  | VStr s => negb (String.eqb s "")
  | VList xs | VTuple xs | VFrozenset xs => negb (bool_decide (xs = []))
  | VDict items => negb (bool_decide (items = []))
  | VModelClass _ | VInstance _ _ _ | VObject _ => true
  end.

(** The elements [iter(v)] yields; [TypeError] when [v] is not iterable.
    A string yields its characters, a dict its keys. *)
Definition iter (v : pyval) : outcome (list pyval) :=
  match v with
  | VStr s => Ok ((λ c, VStr (String c "")) <$> String.list_ascii_of_string s)
  | VList xs | VTuple xs | VFrozenset xs => Ok xs
  | VDict items => Ok (items.*1)
  | VNone | VBool _ | VInt _ | VFloat _
  | VModelClass _ | VInstance _ _ _ | VObject _ => Raise TypeError
  end.

(** [list(v)]. *)
Definition list_ (v : pyval) : outcome pyval :=
  xs ← iter v; Ok (VList xs).

(** Whether [hash(v)] succeeds.  Lists and dicts are unhashable, a tuple
    is hashable when its items are, and Django's [Model.__hash__] raises
    for an instance whose primary key is [None]. *)
Fixpoint hashable (v : pyval) : bool :=
  match v with
  | VList _ | VDict _ => false
  | VTuple xs => forallb hashable xs
  | VInstance _ pk _ => negb (bool_decide (pk = VNone))
  | _ => true
  end.

(** [frozenset(v)]: the members of [v], each once; [TypeError] when [v] is
    not iterable or a member is unhashable.  Members are told apart
    structurally, which is Python's [==] on text. *)
Definition frozenset (v : pyval) : outcome pyval :=
  xs ← iter v;
  if forallb hashable xs then Ok (VFrozenset (remove_dups xs))
  else Raise TypeError.

(** [isinstance(value, str | int | float | bool | list | dict | tuple |
    type(None))]. *)
Definition isinstance_serializable (v : pyval) : bool :=
  match v with
  | VStr _ | VInt _ | VFloat _ | VBool _
  | VList _ | VDict _ | VTuple _ | VNone => true
  | VFrozenset _ | VModelClass _ | VInstance _ _ _ | VObject _ => false
  end.

(** [s.rsplit(".", 1)] unpacked into two names: the text before and after
    the last dot, [None] when [s] has no dot (the unpacking then raises
    [ValueError]). *)
Fixpoint rsplit_dot (s : string) : option (string * string) :=
  match s with
  | EmptyString => None
  | String c rest =>
      match rsplit_dot rest with
      | Some (a, b) => Some (String c a, b)
      | None => if Ascii.eqb c "."%char then Some ("", rest) else None
      end
  end.

End Py.

(** ** Serialising signal keyword arguments *)

(** A dict with text keys: keyword arguments, task metadata. *)
Abbreviation kwargs_t := (gmap string pyval) (only parsing).

(** One turn of the loop of [_serialize_signal_kwargs], for the item
    [(key, value)], on the dict built so far. *)
Definition serialize_item (key : string) (value : pyval)
    (acc : outcome kwargs_t) : outcome kwargs_t :=
  serializable_kwargs ← acc;
  if bool_decide (key ∈ ["signal"; "sender"; "instance"]) then
    Ok serializable_kwargs
  else if bool_decide (key = "update_fields") && negb (bool_decide (value = VNone)) then
    xs ← Py.list_ value;
    Ok (<[key := xs]> serializable_kwargs)
  else if Py.isinstance_serializable value then
    Ok (<[key := value]> serializable_kwargs)
  else
    Ok serializable_kwargs.

(** [_serialize_signal_kwargs(kwargs)]: the loop over [kwargs.items()],
    starting from the empty dict. *)
Definition _serialize_signal_kwargs (kwargs : kwargs_t) : outcome kwargs_t :=
  map_fold serialize_item (Ok ∅) kwargs.

(** ** Model labels *)

(** [v._meta]: model classes and their instances have it, nothing else in
    this model does. *)
Definition meta (v : pyval) : outcome ModelClass :=
  match v with
  | VModelClass cls | VInstance cls _ _ => Ok cls
  | _ => Raise AttributeError
  end.

(** [v.pk].  On an instance it is the primary key; on a model class it is
    the [property] object itself. *)
Definition get_pk (v : pyval) : outcome pyval :=
  match v with
  | VInstance _ pk _ => Ok pk
  | VModelClass _ => Ok (VObject "property")
  | _ => Raise AttributeError
  end.

(** [_get_model_label(model)]. *)
Definition _get_model_label (model : pyval) : outcome (option string) :=
  if Py.truthy model then
    m ← meta model; Ok (Some (app_label m ++ "." ++ model_name m))
  else Ok None.

(** ** Django's application registry and database *)

(** What the task function asks of Django when it runs:
    - [get_model app name] is [apps.get_model(app, name)]; [None] stands
      for the [LookupError] it raises when no such model is installed;
    - [objects_get cls pk] is [cls.objects.get(pk=pk)]: the live record,
      [Raise DoesNotExist] when there is none, or any other failure of the
      database. *)
Record Django := {
  get_model : string → string → option ModelClass;
  objects_get : ModelClass → pyval → outcome pyval;
}.

(** [apps.get_model] as a call that may raise. *)
Definition apps_get_model (dj : Django) (app name : string) : outcome ModelClass :=
  match get_model dj app name with
  | Some cls => Ok cls
  | None => Raise LookupError
  end.

(** ** Handlers *)

(** What calling a handler with [(sender, instance, **kwargs)] does. *)
Definition call_t : Type := pyval → pyval → kwargs_t → outcome pyval.

(** A coroutine object: nothing has run until it is driven. *)
Inductive Coroutine := Coro (run : unit → outcome pyval).

(** The body of a handler: a plain [def], or an [async def] whose call only
    builds a coroutine. *)
Inductive FuncBody :=
| Def (f : call_t)
| AsyncDef (f : pyval → pyval → kwargs_t → Coroutine).

(** A user's signal handler, with its [__name__] and [__module__]. *)
Record SignalHandler := {
  func_name : string;
  func_module : string;
  func_body : FuncBody;
}.

(** [async_to_sync(f)]: call [f], then drive the coroutine to its end. *)
Definition async_to_sync (f : pyval → pyval → kwargs_t → Coroutine) : call_t :=
  λ sender instance kwargs, let 'Coro run := f sender instance kwargs in run tt.

(** The [handler] closed over by the task function:
    [async_to_sync(func) if iscoroutinefunction(func) else func], where
    [iscoroutinefunction] holds of the [async def] bodies. *)
Definition handler_of (func : SignalHandler) : call_t :=
  match func_body func with
  | AsyncDef f => async_to_sync f
  | Def f => f
  end.

(** ** The task function *)

(** [app_label, model_name = label.rsplit(".", 1)]. *)
Definition unpack_label (label : string) : outcome (string * string) :=
  match Py.rsplit_dot label with
  | Some names => Ok names
  | None => Raise ValueError
  end.

(** [if label:] on a [str | None]. *)
Definition label_present (label : option string) : option string :=
  match label with
  | Some l => if String.eqb l "" then None else Some l
  | None => None
  end.

(** The first block of [async_task_func]: reconstruct the sender. *)
Definition reconstruct_sender (dj : Django) (sender_label : option string)
    : outcome pyval :=
  match label_present sender_label with
  | Some l =>
      '(app, name) ← unpack_label l;
      cls ← apps_get_model dj app name;
      Ok (VModelClass cls)
  | None => Ok VNone
  end.

(** The second block: reconstruct the instance.  Only [DoesNotExist] raised
    by [objects.get] is caught; the dict is then given the key
    ["_instance_pk"]. *)
Definition reconstruct_instance (dj : Django) (instance_label : option string)
    (instance_id : pyval) (signal_kwargs : kwargs_t)
    : outcome (pyval * kwargs_t) :=
  match label_present instance_label with
  | Some l =>
      '(app, name) ← unpack_label l;
      model_class ← apps_get_model dj app name;
      match objects_get dj model_class instance_id with
      | Ok instance => Ok (instance, signal_kwargs)
      | Raise DoesNotExist =>
          Ok (VNone, <["_instance_pk" := instance_id]> signal_kwargs)
      | Raise e => Raise e
      end
  | None => Ok (VNone, signal_kwargs)
  end.

(** The third block: turn [update_fields] back into a frozenset. *)
Definition reconstruct_update_fields (signal_kwargs : kwargs_t)
    : outcome kwargs_t :=
  match signal_kwargs !! "update_fields" with
  | Some v =>
      if bool_decide (v = VNone) then Ok signal_kwargs
      else fs ← Py.frozenset v; Ok (<["update_fields" := fs]> signal_kwargs)
  | None => Ok signal_kwargs
  end.

(** [async_task_func(sender_label, instance_label, instance_id,
    signal_kwargs)], the function [_create_async_task_wrapper] builds for
    [func]. *)
Definition async_task_func (dj : Django) (func : SignalHandler)
    (sender_label instance_label : option string) (instance_id : pyval)
    (signal_kwargs : kwargs_t) : outcome pyval :=
  let handler := handler_of func in
  sender ← reconstruct_sender dj sender_label;
  '(instance, signal_kwargs) ←
    reconstruct_instance dj instance_label instance_id signal_kwargs;
  signal_kwargs ← reconstruct_update_fields signal_kwargs;
  handler sender instance signal_kwargs.

(** ** The running process: task queue, signal receivers, modules *)

(** One call of [async_task(task_path, sender_label, instance_label, pk,
    kwargs)], as the queue records it. *)
Record Task := {
  task_path_of : string;
  task_sender_label : option string;
  task_instance_label : option string;
  task_instance_id : pyval;
  task_kwargs : kwargs_t;
}.

(** A signal object, by name. *)
Definition Signal : Type := string.

(** Whether the signal caches its receivers by sender.  The model signals
    of [django.db.models.signals] are made with [use_caching=True]; a
    signal made with [Signal()] is not. *)
Definition use_caching (s : Signal) : bool :=
  bool_decide (s ∈ ["pre_init"; "post_init"; "pre_save"; "post_save";
                    "pre_delete"; "post_delete"; "m2m_changed"]).

(** The [signal_handler] closure of one decoration: its identity ([id()])
    and the [task_path] it closes over. *)
Record Wrapper := { wrapper_id : N; wrapper_task_path : string }.

(** The keyword options the decorator hands on to [Signal.connect]:
    [weak] and [dispatch_uid], each given or left out. *)
Record Options := {
  opt_weak : option bool;
  opt_dispatch_uid : option string;
}.

(** An entry of [Signal.receivers] whose receiver is alive: the lookup key
    Django derives from [dispatch_uid] or from the receiver's identity,
    the sender the receiver was connected for, whether the signal holds
    the receiver through a weak reference only, and the receiver. *)
Record Connection := {
  conn_key : string + N;
  conn_sender : option ModelClass;
  conn_weak : bool;
  conn_receiver : Wrapper;
}.

(** An attribute of a module: a task function generated for [func], or
    anything else. *)
Inductive Attr :=
| TaskFunction (func : SignalHandler)
| OtherAttr (v : pyval).

(** The state the registrar and the wrapper act on: the queue of submitted
    tasks, each signal's live receivers, [sys.modules], and the next fresh
    object identity. *)
Record Process := {
  queue : list Task;
  receivers : gmap Signal (list Connection);
  sys_modules : gmap string (gmap string Attr);
  next_id : N;
}.

(** A call that acts on the process and returns or raises; what it did
    before raising stays done. *)
Definition Exec (A : Type) : Type := Process → outcome A * Process.

Global Instance Exec_ret : MRet Exec := λ A a p, (Ok a, p).
Global Instance Exec_bind : MBind Exec := λ A B f m p,
  match m p with
  | (Ok a, p') => f a p'
  | (Raise e, p') => (Raise e, p')
  end.

Definition raise {A} (e : exn) : Exec A := λ p, (Raise e, p).

(** A call that only computes. *)
Definition lift {A} (m : outcome A) : Exec A := λ p, (m, p).

(** [for x in xs: body(x)]. *)
Fixpoint for_each {A} (body : A → Exec unit) (xs : list A) : Exec unit :=
  match xs with
  | [] => mret tt
  | x :: xs' => body x ≫= λ _, for_each body xs'
  end.

(** The process after one more task was queued. *)
Definition enqueue (t : Task) (p : Process) : Process :=
  {| queue := queue p ++ [t];
     receivers := receivers p;
     sys_modules := sys_modules p;
     next_id := next_id p |}.

(** [async_task(task_path, sender_label, instance_label, pk, kwargs)] with
    a broker that takes every task: the task is appended to the queue; the
    handle the call returns is ignored by the caller.  What the wrapper
    does when the call raises is read off [signal_handler_via] below. *)
Definition async_task (task_path : string) (sender_label instance_label : option string)
    (instance_id : pyval) (kwargs : kwargs_t) : Exec unit :=
  λ p, (Ok tt,
        enqueue {| task_path_of := task_path;
                   task_sender_label := sender_label;
                   task_instance_label := instance_label;
                   task_instance_id := instance_id;
                   task_kwargs := kwargs |} p).

(** ** The wrapper connected to the signals *)

(** [kwargs.get(key)]. *)
Definition kwargs_get (kwargs : kwargs_t) (key : string) : pyval :=
  default VNone (kwargs !! key).

(** [sender and sender._meta.app_label == "django_q"]. *)
Definition is_django_q (sender : pyval) : outcome bool :=
  if Py.truthy sender then
    m ← meta sender; Ok (String.eqb (app_label m) "django_q")
  else Ok false.

(** [instance.pk if instance else None]. *)
Definition pk_or_none (instance : pyval) : outcome pyval :=
  if Py.truthy instance then get_pk instance else Ok VNone.

(** The [signal_handler] closure, called with the signal's keyword
    arguments; [task_path] is the path it closes over. *)
Definition signal_handler (task_path : string) (kwargs : kwargs_t) : Exec unit :=
  let sender := kwargs_get kwargs "sender" in
  let instance := kwargs_get kwargs "instance" in
  skip ← lift (is_django_q sender);
  if skip : bool then mret tt
  else
    sender_label ← lift (_get_model_label sender);
    instance_label ← lift (_get_model_label instance);
    serializable_kwargs ← lift (_serialize_signal_kwargs kwargs);
    pk ← lift (pk_or_none instance);
    async_task task_path sender_label instance_label pk serializable_kwargs.

(** What [async_task] may do with its five arguments, raising included. *)
Definition submit_t : Type :=
  string → option string → option string → pyval → kwargs_t → Exec unit.

(** The same closure over any submit call: the call is the last step and
    is not guarded, so that what it raises leaves the closure. *)
Definition signal_handler_via (submit : submit_t) (task_path : string)
    (kwargs : kwargs_t) : Exec unit :=
  let sender := kwargs_get kwargs "sender" in
  let instance := kwargs_get kwargs "instance" in
  skip ← lift (is_django_q sender);
  if skip : bool then mret tt
  else
    sender_label ← lift (_get_model_label sender);
    instance_label ← lift (_get_model_label instance);
    serializable_kwargs ← lift (_serialize_signal_kwargs kwargs);
    pk ← lift (pk_or_none instance);
    submit task_path sender_label instance_label pk serializable_kwargs.

(** ** Django's signal dispatcher *)

Definition set_receivers (s : Signal) (rs : list Connection) (p : Process) : Process :=
  {| queue := queue p;
     receivers := <[s := rs]> (receivers p);
     sys_modules := sys_modules p;
     next_id := next_id p |}.

(** The live receivers of signal [s], in connection order. *)
Definition receivers_of (p : Process) (s : Signal) : list Connection :=
  default [] (receivers p !! s).

(** The first half of the lookup key of [Signal.connect]: [dispatch_uid]
    when it is given and truthy, else the identity of the receiver. *)
Definition lookup_key (rcv : Wrapper) (dispatch_uid : option string) : string + N :=
  match dispatch_uid with
  | Some uid => if Py.truthy (VStr uid) then inl uid else inr (wrapper_id rcv)
  | None => inr (wrapper_id rcv)
  end.

(** [s.connect(receiver, sender=sender, **options)], which is what
    [receiver(s, sender=sender, **options)(signal_handler)] does: the
    receiver is appended unless an entry with the same lookup key and
    sender is already there; it is held through a weak reference unless
    [weak] is given and false. *)
Definition connect (s : Signal) (rcv : Wrapper) (sender : option ModelClass)
    (options : Options) : Exec unit :=
  λ p,
    let key := lookup_key rcv (opt_dispatch_uid options) in
    let rs := receivers_of p s in
    if existsb (λ c, bool_decide (conn_key c = key ∧ conn_sender c = sender)) rs
    then (Ok tt, p)
    else (Ok tt,
          set_receivers s
            (rs ++ [ {| conn_key := key; conn_sender := sender;
                        conn_weak := default true (opt_weak options);
                        conn_receiver := rcv |} ]) p).

(** Whether a receiver connected for [filter] hears an event sent by
    [sender]: it was connected for every sender, or for this one. *)
Definition hears (filter sender : option ModelClass) : bool :=
  bool_decide (filter = None) || bool_decide (filter = sender).

Definition sender_value (sender : option ModelClass) : pyval :=
  match sender with
  | Some cls => VModelClass cls
  | None => VNone
  end.

(** The call [receiver(signal=self, sender=sender, **named)] that [send]
    makes for one receiver; a named argument called [signal] gives the
    name twice, a [TypeError]. *)
Definition call_receiver (s : Signal) (sender : option ModelClass)
    (named : kwargs_t) (c : Connection) : Exec unit :=
  if bool_decide ("signal" ∈ dom named) then
    raise TypeError
  else
    signal_handler (wrapper_task_path (conn_receiver c))
      (<["signal" := VObject "Signal"]>
         (<["sender" := sender_value sender]> named)).

(** [s.send(sender, **named)].  A named argument called [self] or [sender]
    collides with the parameters of [send] itself, a [TypeError].  Without
    receivers the call returns at once.  Else a caching signal looks the
    sender up in a [WeakKeyDictionary], a [TypeError] for [None].  Then
    every receiver that hears [sender] is called, in connection order; an
    exception of a receiver ends the dispatch.  The receivers are the live
    ones: an entry that died and that Django has not dropped yet counts
    for nothing here, though Django's first test still sees it. *)
Definition send (s : Signal) (sender : option ModelClass) (named : kwargs_t)
    : Exec unit :=
  λ p,
    if bool_decide ("self" ∈ dom named ∨ "sender" ∈ dom named) then
      (Raise TypeError, p)
    else
      match receivers_of p s with
      | [] => (Ok tt, p)
      | _ :: _ =>
          if use_caching s && bool_decide (sender = None) then (Raise TypeError, p)
          else
            for_each (call_receiver s sender named)
              (filter (λ c, hears (conn_sender c) sender = true) (receivers_of p s)) p
      end.

(** ** The registrar *)

(** [setattr(module, name, value)] on [sys.modules[module_name]];
    [KeyError] when no such module is loaded. *)
Definition install (module_name name : string) (value : Attr) : Exec unit :=
  λ p,
    match sys_modules p !! module_name with
    | Some module =>
        (Ok tt,
         {| queue := queue p;
            receivers := receivers p;
            sys_modules := <[module_name := <[name := value]> module]> (sys_modules p);
            next_id := next_id p |})
    | None => (Raise KeyError, p)
    end.

(** [_create_async_task_wrapper(func)]: the task function for [func] is
    installed in [func]'s module under [task_name]; the result is
    [task_path]. *)
Definition _create_async_task_wrapper (func : SignalHandler) : Exec string :=
  let task_name := func_name func ++ "_task" in
  let task_path := func_module func ++ "." ++ task_name in
  install (func_module func) task_name (TaskFunction func) ≫= λ _,
  mret task_path.

(** A new function object: its identity is fresh. *)
Definition new_closure (task_path : string) : Exec Wrapper :=
  λ p,
    (Ok {| wrapper_id := next_id p; wrapper_task_path := task_path |},
     {| queue := queue p;
        receivers := receivers p;
        sys_modules := sys_modules p;
        next_id := N.succ (next_id p) |}).

(** The entry holds [w] through a weak reference only. *)
Definition held_weakly (w : Wrapper) (c : Connection) : bool :=
  conn_weak c && bool_decide (wrapper_id (conn_receiver c) = wrapper_id w).

(** The end of [decorator]: the local name [signal_handler] is gone, and
    nothing but the signals refers to the closure [w].  Where a signal
    holds it through a weak reference the closure is collected and the
    entry is dead.  Django drops a dead entry when it next goes through
    the list, in [connect] and in the dispatch, and skips it until then;
    here it is dropped at once. *)
Definition end_of_scope (w : Wrapper) : Exec unit :=
  λ p,
    (Ok tt,
     {| queue := queue p;
        receivers := filter (λ c, held_weakly w c = false) <$> receivers p;
        sys_modules := sys_modules p;
        next_id := next_id p |}).

(** The [signal] argument of [async_receiver]: one signal, or a list or
    tuple of signals. *)
Inductive SignalArg :=
| One (s : Signal)
| Many (ss : list Signal).

(** [async_receiver(signal, sender, **options)(func)]: the decorator
    applied to [func]. *)
Definition async_receiver (signal : SignalArg) (sender : option ModelClass)
    (options : Options) (func : SignalHandler) : Exec SignalHandler :=
  task_path ← _create_async_task_wrapper func;
  signal_handler ← new_closure task_path;
  match signal with
  | Many ss => for_each (λ s, connect s signal_handler sender options) ss
  | One s => connect s signal_handler sender options
  end ≫= λ _,
  end_of_scope signal_handler ≫= λ _,
  mret func.

(** How the queue's worker finds the callable behind a task path:
    [module.attribute], split at the last dot. *)
Definition resolve_task (p : Process) (path : string) : option Attr :=
  '(module_name, name) ← Py.rsplit_dot path;
  module ← sys_modules p !! module_name;
  module !! name.

(** Running a queued task in a worker: the task function found under the
    task's path is called with the recorded arguments. *)
Definition run_task (dj : Django) (p : Process) (t : Task) : outcome pyval :=
  match resolve_task p (task_path_of t) with
  | Some (TaskFunction func) =>
      async_task_func dj func (task_sender_label t) (task_instance_label t)
        (task_instance_id t) (task_kwargs t)
  | Some (OtherAttr _) => Raise TypeError
  | None => Raise AttributeError
  end.

(** * Vocabulary of the properties *)

(** ** Values and serialisation *)

(** Two values denote the same frozenset when both are frozensets with the
    same members, whatever their iteration order. *)
Definition same_members (a b : pyval) : Prop :=
  match a, b with
  | VFrozenset xs, VFrozenset ys => ∀ x, x ∈ xs ↔ x ∈ ys
  | _, _ => False
  end.

(** The frozenset of field names that is iterated in the order [order]. *)
Definition fields_value (order : list string) : pyval :=
  VFrozenset (VStr <$> order).

(** What one turn of the loop stores for the item [(key, value)]: [None]
    when it stores nothing. *)
Definition kept (key : string) (value : pyval) : option pyval :=
  if bool_decide (key ∈ ["signal"; "sender"; "instance"]) then None
  else if bool_decide (key = "update_fields") && negb (bool_decide (value = VNone)) then
    match Py.iter value with
    | Ok xs => Some (VList xs)
    | Raise _ => None
    end
  else if Py.isinstance_serializable value then Some value
  else None.

(** The [update_fields] entry, when there is one, is [None] or iterable. *)
Definition update_fields_iterable (kwargs : kwargs_t) : bool :=
  match kwargs !! "update_fields" with
  | Some v => bool_decide (v = VNone) || returns (Py.iter v)
  | None => true
  end.

(** The [update_fields] entry, when there is one, is [None] or something
    [frozenset] accepts: an iterable of hashable values. *)
Definition update_fields_restorable (kwargs : kwargs_t) : bool :=
  match kwargs !! "update_fields" with
  | Some v => bool_decide (v = VNone) || returns (Py.frozenset v)
  | None => true
  end.

(** The keys that are handled structurally and never serialised. *)
Definition structural_keys : list string := ["signal"; "sender"; "instance"].

(** The filtering rule: the call returns a dict [d], without the structural
    keys; a non-null [update_fields] entry is there as the list of its
    elements; any other entry is there, unchanged, exactly when
    [isinstance] admits its value. *)
Definition filters_silently (kwargs : kwargs_t) : Prop :=
  ∃ d, _serialize_signal_kwargs kwargs = Ok d ∧
    (∀ k, k ∈ structural_keys → d !! k = None) ∧
    (∀ k, kwargs !! k = None → d !! k = None) ∧
    (∀ k v, k ∉ structural_keys → kwargs !! k = Some v →
       if bool_decide (k = "update_fields" ∧ v ≠ VNone)
       then ∃ xs, Py.iter v = Ok xs ∧ d !! k = Some (VList xs)
       else d !! k = if Py.isinstance_serializable v then Some v else None).

(** ** What the task function does *)

(** The task function calls the handler with [(sender, instance,
    **kwargs)] and returns what the handler returns, whichever handler it
    was built for. *)
Definition invokes (dj : Django) (sender_label instance_label : option string)
    (instance_id : pyval) (signal_kwargs : kwargs_t)
    (sender instance : pyval) (kwargs : kwargs_t) : Prop :=
  ∀ func, async_task_func dj func sender_label instance_label instance_id signal_kwargs
          = handler_of func sender instance kwargs.

(** The task function raises [e] before any handler is called. *)
Definition fails_with (dj : Django) (sender_label instance_label : option string)
    (instance_id : pyval) (signal_kwargs : kwargs_t) (e : exn) : Prop :=
  ∀ func, async_task_func dj func sender_label instance_label instance_id signal_kwargs
          = Raise e.

(** The label [_get_model_label] gives a model or one of its instances. *)
Definition label_of (cls : ModelClass) : string :=
  app_label cls ++ "." ++ model_name cls.

(** Whether a name contains a dot.  Model names never do: Django derives
    them from class names. *)
Fixpoint has_dot (s : string) : bool :=
  match s with
  | EmptyString => false
  | String c rest => Ascii.eqb c "."%char || has_dot rest
  end.

(** [cls] is installed: the registry returns it for its own names. *)
Definition installed (dj : Django) (cls : ModelClass) : Prop :=
  get_model dj (app_label cls) (model_name cls) = Some cls ∧
  has_dot (model_name cls) = false.

(** [label] is present and names the installed model [cls]. *)
Definition names_model (dj : Django) (label : option string) (cls : ModelClass) : Prop :=
  ∃ l app name, label_present label = Some l ∧
                Py.rsplit_dot l = Some (app, name) ∧
                get_model dj app name = Some cls.

(** [label] is present and names a model that is not installed. *)
Definition names_missing_model (dj : Django) (label : option string) : Prop :=
  ∃ l app name, label_present label = Some l ∧
                Py.rsplit_dot l = Some (app, name) ∧
                get_model dj app name = None.

(** [label] is absent, or names an installed model. *)
Definition label_resolves (dj : Django) (label : option string) : Prop :=
  label_present label = None ∨ ∃ cls, names_model dj label cls.

(** The database holds a record of [cls] under [pk]. *)
Definition stored (dj : Django) (cls : ModelClass) (pk : pyval) : Prop :=
  ∃ fields, objects_get dj cls pk = Ok (VInstance cls pk fields).

(** The instance label names an installed model, and the database has no
    record of it under [instance_id]. *)
Definition missing_record (dj : Django) (instance_label : option string)
    (instance_id : pyval) : Prop :=
  ∃ cls, names_model dj instance_label cls ∧
         objects_get dj cls instance_id = Raise DoesNotExist.

(** The handler is called with [instance=None] and learns the primary key
    under ["_instance_pk"]. *)
Definition handler_told_of_deletion (dj : Django)
    (sender_label instance_label : option string) (instance_id : pyval)
    (signal_kwargs : kwargs_t) : Prop :=
  ∃ sender kwargs,
    kwargs !! "_instance_pk" = Some instance_id ∧
    invokes dj sender_label instance_label instance_id signal_kwargs sender VNone kwargs.

(** ** Events and their replay *)

(** The event's keyword arguments name the sender [S] and an instance of
    [cls] with primary key [pk]. *)
Definition event_of (kwargs : kwargs_t) (S cls : ModelClass) (pk : pyval) : Prop :=
  kwargs !! "sender" = Some (VModelClass S) ∧
  ∃ fields, kwargs !! "instance" = Some (VInstance cls pk fields).

(** The wrapper returns without raising and queues one task for the event,
    under the path it closes over. *)
Definition submits (kwargs : kwargs_t) : Prop :=
  ∀ task_path p, ∃ t,
    signal_handler task_path kwargs p = (Ok tt, enqueue t p) ∧
    task_path_of t = task_path.

(** Whatever task the wrapper queues for the event, running the task
    function on its arguments calls the handler with the sender [S] and an
    instance of [cls] with primary key [pk]. *)
Definition replayed (dj : Django) (kwargs : kwargs_t) (S cls : ModelClass)
    (pk : pyval) : Prop :=
  ∀ task_path p p' t,
    signal_handler task_path kwargs p = (Ok tt, p') →
    queue p' = (queue p ++ [t])%list →
    ∃ fields kwargs',
      invokes dj (task_sender_label t) (task_instance_label t) (task_instance_id t)
        (task_kwargs t) (VModelClass S) (VInstance cls pk fields) kwargs'.

(** The sender of the event is [None], or an installed model that is
    allowed by [allowed]. *)
Definition sender_none_or_installed (dj : Django) (kwargs : kwargs_t)
    (allowed : ModelClass → Prop) : Prop :=
  kwargs_get kwargs "sender" = VNone ∨
  ∃ S, kwargs !! "sender" = Some (VModelClass S) ∧ installed dj S ∧ allowed S.

(** For the event with keyword arguments [kwargs]: the wrapper returns
    without raising, having queued one task whose instance label and
    primary key are [None], and the task function run on that task's
    arguments calls the handler with [instance=None]. *)
Definition none_instance_replayed (dj : Django) (kwargs : kwargs_t) : Prop :=
  ∀ task_path p, ∃ t,
    signal_handler task_path kwargs p = (Ok tt, enqueue t p) ∧
    task_instance_label t = None ∧
    task_instance_id t = VNone ∧
    ∃ sender kwargs',
      invokes dj (task_sender_label t) (task_instance_label t) (task_instance_id t)
        (task_kwargs t) sender VNone kwargs'.

(** ** The registrar and the dispatcher *)

(** The names [_create_async_task_wrapper] derives for [func]. *)
Definition task_name (func : SignalHandler) : string := func_name func ++ "_task".
Definition task_path (func : SignalHandler) : string :=
  func_module func ++ "." ++ task_name func.

(** The attribute bound to [name] in the module [module_name]. *)
Definition bound_at (p : Process) (module_name name : string) : option Attr :=
  module ← sys_modules p !! module_name; module !! name.

(** The entry [connect] makes for the receiver [w]. *)
Definition connection_of (w : Wrapper) (sender : option ModelClass)
    (options : Options) : Connection :=
  {| conn_key := lookup_key w (opt_dispatch_uid options);
     conn_sender := sender;
     conn_weak := default true (opt_weak options);
     conn_receiver := w |}.

(** Every handler has a task name of its own. *)
Definition task_names_unique : Prop :=
  ∀ f g : SignalHandler, f ≠ g → task_name f ≠ task_name g.

(** Once a handler is decorated, its task path keeps resolving to its own
    task function, whichever other handler is decorated later. *)
Definition binding_stable : Prop :=
  ∀ f g signal sender options signal' sender' options' p p1 p2,
    f ≠ g →
    async_receiver signal sender options f p = (Ok f, p1) →
    async_receiver signal' sender' options' g p1 = (Ok g, p2) →
    resolve_task p2 (task_path f) = resolve_task p1 (task_path f).

(** The signals a [signal] argument stands for. *)
Definition signals_of (signal : SignalArg) : list Signal :=
  match signal with
  | One s => [s]
  | Many ss => ss
  end.

(** Whether the lookup key and sender of [c] are already among [rs]. *)
Definition key_taken (c : Connection) (rs : list Connection) : bool :=
  existsb (λ c', bool_decide (conn_key c' = conn_key c ∧ conn_sender c' = conn_sender c)) rs.

(** The wrapper a decoration of [func] makes in the process [p]. *)
Definition wrapper_of (p : Process) (func : SignalHandler) : Wrapper :=
  {| wrapper_id := next_id p; wrapper_task_path := task_path func |}.

(** The identities in use are older than the next fresh one: an invariant
    of every process, as [id()] tells live objects apart. *)
Definition ids_fresh (p : Process) : Prop :=
  ∀ s c, c ∈ receivers_of p s →
    (wrapper_id (conn_receiver c) < next_id p)%N ∧
    ∀ n, conn_key c = inr n → (n < next_id p)%N.

(** The call [s.send(sender, **named)] binds its arguments and reaches
    the receivers: no named argument is called [self], [sender] or
    [signal], and the sender is not [None] when the signal caches its
    receivers by sender. *)
Definition deliverable (s : Signal) (sender : option ModelClass) (named : kwargs_t)
    : Prop :=
  ("self" ∉ dom named) ∧ ("sender" ∉ dom named) ∧ ("signal" ∉ dom named) ∧
  (use_caching s = true → sender ≠ None).

(** An event every wrapper takes: the sender is not a model of the
    ["django_q"] app, the instance is [None] or a model instance, and the
    [update_fields] entry, if any, is null or iterable. *)
Definition acceptable (sender : option ModelClass) (named : kwargs_t) : Prop :=
  (∀ S, sender = Some S → app_label S ≠ "django_q") ∧
  (kwargs_get named "instance" = VNone ∨
   ∃ cls pk fields, named !! "instance" = Some (VInstance cls pk fields)) ∧
  update_fields_iterable named = true.

(** A firing: an event that can be delivered and that every wrapper
    takes. *)
Definition fires (s : Signal) (sender : option ModelClass) (named : kwargs_t) : Prop :=
  deliverable s sender named ∧ acceptable sender named.

(** The keyword arguments a receiver is called with. *)
Definition event_kwargs (sender : option ModelClass) (named : kwargs_t) : kwargs_t :=
  <["signal" := VObject "Signal"]> (<["sender" := sender_value sender]> named).

(** The task a wrapper closing over [path] submits for the event, [d]
    being the serialised keyword arguments. *)
Definition submitted (path : string) (sender : option ModelClass) (named d : kwargs_t)
    : Task :=
  {| task_path_of := path;
     task_sender_label := label_of <$> sender;
     task_instance_label :=
       match named !! "instance" with
       | Some (VInstance cls _ _) => Some (label_of cls)
       | _ => None
       end;
     task_instance_id :=
       match named !! "instance" with
       | Some (VInstance _ pk _) => pk
       | _ => VNone
       end;
     task_kwargs := d |}.

(** The process after the tasks [ts] were queued, in their order. *)
Definition enqueue_all (ts : list Task) (p : Process) : Process :=
  {| queue := queue p ++ ts;
     receivers := receivers p;
     sys_modules := sys_modules p;
     next_id := next_id p |}.

(** The receivers of [s] that hear [sender], in connection order. *)
Definition heard (p : Process) (s : Signal) (sender : option ModelClass)
    : list Connection :=
  filter (λ c, hears (conn_sender c) sender = true) (receivers_of p s).

(** One task from each of the receivers [cs], in their order, each under
    the task path of its receiver. *)
Definition one_task_each (cs : list Connection) (ts : list Task) : Prop :=
  Forall2 (λ c t, task_path_of t = wrapper_task_path (conn_receiver c)) cs ts.

(** The claim about two topics, as it is written: the decoration connects
    one wrapper of the handler to both signals, and every dispatch of
    either signal that reaches the wrapper returns and queues exactly one
    task, under the handler's task path. *)
Definition two_topics_as_claimed (filter : option ModelClass) (options : Options)
    (func : SignalHandler) (p : Process) (t1 t2 : Signal) : Prop :=
  ∃ p' c,
    async_receiver (Many [t1; t2]) filter options func p = (Ok func, p') ∧
    c ∈ receivers_of p' t1 ∧ c ∈ receivers_of p' t2 ∧
    wrapper_task_path (conn_receiver c) = task_path func ∧
    ∀ t sender named,
      t ∈ [t1; t2] → deliverable t sender named → hears filter sender = true →
      ∃ task, send t sender named p' = (Ok tt, enqueue task p') ∧
              task_path_of task = task_path func.

(** One entry, holding a wrapper that closes over [path], connected for
    [filter] and held strongly, is the last receiver of both signals in
    [p'], after the receivers they had in [p]. *)
Definition connected_to_both (p p' : Process) (t1 t2 : Signal)
    (filter : option ModelClass) (path : string) : Prop :=
  ∃ c, receivers_of p' t1 = (receivers_of p t1 ++ [c])%list ∧
       receivers_of p' t2 = (receivers_of p t2 ++ [c])%list ∧
       conn_sender c = filter ∧ conn_weak c = false ∧
       wrapper_task_path (conn_receiver c) = path.

(** Each firing of [t1] or [t2] that passes [filter] returns without
    raising and queues one task for each receiver that was connected in
    [p] and hears the sender, and after them exactly one task under
    [path]. *)
Definition one_task_per_firing (p p' : Process) (t1 t2 : Signal)
    (filter : option ModelClass) (path : string) : Prop :=
  ∀ t sender named q,
    t ∈ [t1; t2] → receivers q = receivers p' →
    fires t sender named → hears filter sender = true →
    ∃ earlier task,
      send t sender named q = (Ok tt, enqueue task (enqueue_all earlier q)) ∧
      one_task_each (heard p t sender) earlier ∧
      task_path_of task = path.

(** Firing [t1] and then [t2] queues exactly two tasks under [path], one
    at the end of each dispatch. *)
Definition two_tasks_for_two_firings (p p' : Process) (t1 t2 : Signal)
    (filter : option ModelClass) (path : string) : Prop :=
  ∀ sender1 named1 sender2 named2,
    fires t1 sender1 named1 → hears filter sender1 = true →
    fires t2 sender2 named2 → hears filter sender2 = true →
    ∃ earlier1 task1 earlier2 task2,
      (send t1 sender1 named1 ≫= λ _, send t2 sender2 named2) p'
      = (Ok tt, enqueue task2 (enqueue_all earlier2
                  (enqueue task1 (enqueue_all earlier1 p')))) ∧
      one_task_each (heard p t1 sender1) earlier1 ∧
      one_task_each (heard p t2 sender2) earlier2 ∧
      task_path_of task1 = path ∧ task_path_of task2 = path.

(** ** Sample data *)

(** The model [blog.article], and Django-Q's own [Task] model. *)
Definition article : ModelClass := MkModel "blog" "article".
Definition django_q_task : ModelClass := MkModel "django_q" "task".

(** An application with the one model [blog.article], holding article 7. *)
Definition blog : Django := {|
  get_model := λ app name,
    if bool_decide (app = "blog" ∧ name = "article")
    then Some article else None;
  objects_get := λ cls pk,
    if bool_decide (cls = article ∧ pk = VInt 7)
    then Ok (VInstance article (VInt 7) [("title", VStr "Edited")])
    else Raise DoesNotExist;
|}.

(** An application that also has Django-Q's [Task] model installed. *)
Definition cluster : Django := {|
  get_model := λ app name,
    if bool_decide (app = "django_q" ∧ name = "task") then Some django_q_task
    else get_model blog app name;
  objects_get := objects_get blog;
|}.

(** The keyword arguments of a [post_save] event for a saved [Article]. *)
Definition example_kwargs : kwargs_t :=
  <["signal" := VObject "ModelSignal"]>
    (<["sender" := VModelClass article]>
    (<["instance" := VInstance article (VInt 7) [("title", VStr "Hello")]]>
    (<["created" := VBool false]>
    (<["update_fields" := VFrozenset [VStr "title"; VStr "body"]]>
    (<["raw" := VBool false]>
    (<["using" := VStr "default"]>
    (<["origin" := VObject "Collector"]> ∅))))))).

(** The keyword arguments of a [post_save] event for [Article.objects.create]:
    Django passes [update_fields=None]. *)
Definition created_kwargs : kwargs_t :=
  <["signal" := VObject "ModelSignal"]>
    (<["sender" := VModelClass article]>
    (<["instance" := VInstance article (VInt 7) [("title", VStr "Hello")]]>
    (<["created" := VBool true]>
    (<["update_fields" := VNone]>
    (<["raw" := VBool false]>
    (<["using" := VStr "default"]> ∅)))))).

(** The event of the test suite: [post_save.send(sender=Article,
    instance=None)]. *)
Definition bare_kwargs : kwargs_t :=
  <["signal" := VObject "ModelSignal"]>
    (<["sender" := VModelClass article]>
    (<["instance" := VNone]> ∅)).

(** The same event with [update_fields=[["title"]]]: a list whose one
    member is itself a list. *)
Definition nested_kwargs : kwargs_t :=
  <["update_fields" := VList [VList [VStr "title"]]]> example_kwargs.

(** The task the wrapper queues for [nested_kwargs]. *)
Definition nested_task : Task := {|
  task_path_of := "blog.signals.handler_task";
  task_sender_label := Some "blog.article";
  task_instance_label := Some "blog.article";
  task_instance_id := VInt 7;
  task_kwargs :=
    <["created" := VBool false]>
      (<["update_fields" := VList [VList [VStr "title"]]]>
      (<["raw" := VBool false]>
      (<["using" := VStr "default"]> ∅)));
|}.

(** A synchronous handler that returns [None]. *)
Definition noop_handler : SignalHandler := {|
  func_name := "handler";
  func_module := "blog.signals";
  func_body := Def (λ _ _ _, Ok VNone);
|}.

(** Another handler called [handler] in [blog.signals]; it returns [1]. *)
Definition other_handler : SignalHandler := {|
  func_name := "handler";
  func_module := "blog.signals";
  func_body := Def (λ _ _ _, Ok (VInt 1));
|}.

(** A process with the module [blog.signals] loaded, nothing queued and
    nothing connected. *)
Definition idle : Process := {|
  queue := [];
  receivers := ∅;
  sys_modules := {["blog.signals" := ∅]};
  next_id := 0;
|}.

(** The options of the call [async_receiver(signal, sender)]: none given,
    so that [connect] takes its defaults. *)
Definition no_options : Options := {| opt_weak := None; opt_dispatch_uid := None |}.

(** [weak=False], as the test suite passes it. *)
Definition held_strongly : Options :=
  {| opt_weak := Some false; opt_dispatch_uid := None |}.

(** [weak=False, dispatch_uid="saved"]. *)
Definition strongly_as_saved : Options :=
  {| opt_weak := Some false; opt_dispatch_uid := Some "saved" |}.

(** The process after [noop_handler] was decorated for [post_save] and
    [post_delete], for every sender, with [weak=False]. *)
Definition listening : Process :=
  (async_receiver (Many ["post_save"; "post_delete"]) None held_strongly
     noop_handler idle).2.

(** A handler called [audit] in [blog.signals]. *)
Definition audit_handler : SignalHandler := {|
  func_name := "audit";
  func_module := "blog.signals";
  func_body := Def (λ _ _ _, Ok VNone);
|}.

(** A handler of the module [shop.signals], which is not loaded. *)
Definition unloaded_handler : SignalHandler := {|
  func_name := "handler";
  func_module := "shop.signals";
  func_body := Def (λ _ _ _, Ok VNone);
|}.

(** A submit call that fails: the broker cannot be reached. *)
Definition broker_down : submit_t :=
  λ _ _ _ _ _, raise (OtherError "broker is down").

(** The process after [audit_handler] was decorated for [post_save] and the
    sender [article] with [weak=False, dispatch_uid="saved"]. *)
Definition audited : Process :=
  (async_receiver (One "post_save") (Some article) strongly_as_saved audit_handler idle).2.

(** A handler that reports what it was called with: the sender, the
    instance, and the keyword arguments [created], [update_fields] and
    [_instance_pk]. *)
Definition report (sender instance : pyval) (kwargs : kwargs_t) : pyval :=
  VTuple [sender; instance; kwargs_get kwargs "created";
          kwargs_get kwargs "update_fields"; kwargs_get kwargs "_instance_pk"].

Definition report_handler : SignalHandler := {|
  func_name := "handler";
  func_module := "blog.signals";
  func_body := Def (λ sender instance kwargs, Ok (report sender instance kwargs));
|}.

(** The same handler written with [async def]. *)
Definition async_report_handler : SignalHandler := {|
  func_name := "handler";
  func_module := "blog.signals";
  func_body :=
    AsyncDef (λ sender instance kwargs, Coro (λ _, Ok (report sender instance kwargs)));
|}.

(** Decorate [func] for [signal] and the sender [article] with
    [weak=False], then send the events [events] in turn; the result is what
    the last call returned and the process it left. *)
Definition scenario (signal : SignalArg) (func : SignalHandler)
    (events : list (Signal * kwargs_t)) : outcome unit * Process :=
  (async_receiver signal (Some article) held_strongly func ≫= λ _,
   for_each (λ ev, send ev.1 (Some article) ev.2) events) idle.

(** What the queued tasks return when a worker runs them. *)
Definition run_queue (dj : Django) (p : Process) : list (outcome pyval) :=
  run_task dj p <$> queue p.

(** ** Further vocabulary *)

(** The loop passes over the item [(key, value)] without storing anything:
    the key is structural, or the value is of a kind [isinstance] does not
    admit (and the key is not [update_fields], whose value is converted
    whatever its kind). *)
Definition skipped (key : string) (value : pyval) : Prop :=
  key ∈ structural_keys ∨
  (key ≠ "update_fields" ∧ Py.isinstance_serializable value = false).

(** What [_serialize_signal_kwargs] returns for [example_kwargs]. *)
Definition example_metadata : kwargs_t :=
  <["created" := VBool false]>
    (<["update_fields" := VList [VStr "title"; VStr "body"]]>
    (<["raw" := VBool false]>
    (<["using" := VStr "default"]> ∅))).

(** The instance block finds its answer: there is no instance label, or the
    label names an installed model and the lookup of the record returns or
    raises [DoesNotExist]. *)
Definition instance_settled (dj : Django) (instance_label : option string)
    (instance_id : pyval) : Prop :=
  label_present instance_label = None ∨
  ∃ cls, names_model dj instance_label cls ∧
         (returns (objects_get dj cls instance_id) = true ∨
          objects_get dj cls instance_id = Raise DoesNotExist).

(** A handler that reports the sender, the instance, and whether and how
    the keyword argument [k] reached it. *)
Definition probe (k : string) : SignalHandler := {|
  func_name := "probe";
  func_module := "blog.signals";
  func_body :=
    Def (λ sender instance kwargs,
           Ok (VTuple [sender; instance; VList (option_list (kwargs !! k))]));
|}.

(** The application [blog] while its database cannot be reached. *)
Definition offline : Django := {|
  get_model := get_model blog;
  objects_get := λ _ _, Raise (OtherError "database is locked");
|}.

(** The named arguments of a [post_save] event for a saved article, as the
    dispatcher receives them. *)
Definition saved_named : kwargs_t :=
  <["instance" := VInstance article (VInt 7) [("title", VStr "Hello")]]>
    (<["created" := VBool false]>
    (<["update_fields" := fields_value ["title"]]> ∅)).

(** * Properties *)

(** ** Serialisation of keyword arguments *)

Lemma update_fields_iterable_insert (key : string) (value : pyval) (m : kwargs_t) :
  m !! key = None →
  update_fields_iterable (<[key := value]> m) =
    if bool_decide (key = "update_fields")
    then bool_decide (value = VNone) || returns (Py.iter value)
    else update_fields_iterable m.
Proof.
  intros Hfresh. unfold update_fields_iterable.
  case_bool_decide as Hk.
  - subst key. by rewrite lookup_insert_eq.
  - by rewrite lookup_insert_ne.
Qed.

(** One turn of the loop in terms of [kept]. *)
Lemma serialize_item_kept (key : string) (value : pyval) (d : kwargs_t) :
  (bool_decide (key = "update_fields") →
   bool_decide (value = VNone) || returns (Py.iter value) = true) →
  serialize_item key value (Ok d) =
    Ok (match kept key value with Some w => <[key := w]> d | None => d end).
Proof.
  intros Hiter. unfold serialize_item, kept. simpl.
  destruct (bool_decide (key ∈ _)); [done|].
  destruct (bool_decide (key = "update_fields")); simpl;
    [|by destruct (Py.isinstance_serializable value)].
  specialize (Hiter I).
  destruct (bool_decide (value = VNone)); simpl;
    [by destruct (Py.isinstance_serializable value)|].
  simpl in Hiter. unfold Py.list_. by destruct (Py.iter value).
Qed.

Lemma serialize_item_raises (value : pyval) (d : kwargs_t) :
  bool_decide (value = VNone) || returns (Py.iter value) = false →
  serialize_item "update_fields" value (Ok d) = Raise TypeError.
Proof.
  intros [Hv Hiter]%orb_false_iff. unfold serialize_item. simpl.
  rewrite Hv. simpl. unfold Py.list_. by destruct value.
Qed.

Lemma kept_step (key : string) (value : pyval) (d m : kwargs_t) :
  m !! key = None →
  (∀ k, d !! k = m !! k ≫= kept k) →
  ∀ k, match kept key value with Some w => <[key := w]> d | None => d end !! k
       = <[key := value]> m !! k ≫= kept k.
Proof.
  intros Hfresh Hd k. destruct (decide (k = key)) as [->|Hne].
  - rewrite lookup_insert_eq. simpl.
    destruct (kept key value); [by rewrite lookup_insert_eq|].
    by rewrite Hd, Hfresh.
  - rewrite (lookup_insert_ne m) by done. rewrite <- Hd.
    destruct (kept key value); [by rewrite lookup_insert_ne|done].
Qed.

(** The loop, item by item: while every [list(value)] succeeds the dict
    built holds exactly what [kept] says; the one call that can fail makes
    the whole function raise [TypeError]. *)
Lemma serialize_spec (kwargs : kwargs_t) :
  if update_fields_iterable kwargs
  then ∃ d, _serialize_signal_kwargs kwargs = Ok d ∧
            ∀ k, d !! k = kwargs !! k ≫= kept k
  else _serialize_signal_kwargs kwargs = Raise TypeError.
Proof.
  unfold _serialize_signal_kwargs.
  apply (map_fold_weak_ind (λ r m,
    if update_fields_iterable m
    then ∃ d, r = Ok d ∧ ∀ k, d !! k = m !! k ≫= kept k
    else r = Raise TypeError)).
  - exists ∅. split; [done|]. intros k. by rewrite !lookup_empty.
  - intros key value m r Hfresh IH.
    rewrite update_fields_iterable_insert by done.
    case_bool_decide as Hk.
    + subst key.
      assert (update_fields_iterable m = true) as Hm
        by (unfold update_fields_iterable; by rewrite Hfresh).
      rewrite Hm in IH. destruct IH as (d & -> & Hd).
      destruct (bool_decide (value = VNone) || returns (Py.iter value)) eqn:Hiter.
      * rewrite serialize_item_kept by done.
        eexists; split; [done|]. by apply kept_step.
      * by apply serialize_item_raises.
    + destruct (update_fields_iterable m); [|by rewrite IH].
      destruct IH as (d & -> & Hd).
      rewrite serialize_item_kept by (rewrite bool_decide_eq_false_2; done).
      eexists; split; [done|]. by apply kept_step.
Qed.

(** C3 (amended).  For every keyword-argument mapping whose [update_fields]
    entry, if any, is null or iterable, [_serialize_signal_kwargs] returns
    without raising; the result never has the keys [signal], [sender] or
    [instance]; a non-null [update_fields] entry is kept as the list of its
    elements; every other key is kept, with its value, exactly when the
    value is text, an integer, a float, a boolean, a list, a dict, a tuple
    or null, and is dropped otherwise. *)
Theorem serialize_filters_kwargs (kwargs : kwargs_t) :
  update_fields_iterable kwargs = true → filters_silently kwargs.
Proof.
  intros Hiter. pose proof (serialize_spec kwargs) as Hspec.
  unfold filters_silently, structural_keys. rewrite Hiter in Hspec.
  destruct Hspec as (d & Hd & Hlookup).
  exists d. split; [done|]. repeat split.
  - intros k Hk. rewrite Hlookup. destruct (kwargs !! k); [simpl|done].
    unfold kept. by rewrite bool_decide_eq_true_2.
  - intros k Hk. by rewrite Hlookup, Hk.
  - intros k v Hk Hv. rewrite Hlookup, Hv. simpl. unfold kept.
    rewrite (bool_decide_eq_false_2 (k ∈ _)) by done.
    case_bool_decide as Huf.
    + destruct Huf as [-> Hnone].
      rewrite bool_decide_eq_true_2, (bool_decide_eq_false_2 (v = VNone)) by done.
      simpl. unfold update_fields_iterable in Hiter. rewrite Hv in Hiter.
      rewrite (bool_decide_eq_false_2 (v = VNone)) in Hiter by done.
      destruct (Py.iter v) as [xs|]; [by exists xs|done].
    + destruct (decide (k = "update_fields")) as [->|Hne].
      * assert (v = VNone) as -> by (destruct (decide (v = VNone)); [done|tauto]).
        done.
      * by rewrite (bool_decide_eq_false_2 (k = "update_fields")).
Qed.

Lemma serialize_filters_kwargs_witness :
  update_fields_iterable example_kwargs = true ∧ filters_silently example_kwargs.
Proof.
  split; [reflexivity|]. apply (serialize_filters_kwargs example_kwargs). reflexivity.
Defined.

(** C3, as stated, fails: with [update_fields=5] the conversion
    [list(value)] raises [TypeError], so no dict is returned at all. *)
Lemma serialize_scalar_update_fields_raises :
  _serialize_signal_kwargs {["update_fields" := VInt 5]} = Raise TypeError ∧
  ¬ filters_silently {["update_fields" := VInt 5]}.
Proof.
  assert (_serialize_signal_kwargs {["update_fields" := VInt 5]} = Raise TypeError) as E
    by (vm_compute; reflexivity).
  split; [exact E|]. intros (d & Hd & _). rewrite E in Hd. discriminate.
Qed.

Lemma restorable_iterable (kwargs : kwargs_t) :
  update_fields_restorable kwargs = true → update_fields_iterable kwargs = true.
Proof.
  unfold update_fields_restorable, update_fields_iterable.
  destruct (kwargs !! "update_fields") as [v|]; [|done].
  destruct (bool_decide (v = VNone)); [done|]. simpl.
  unfold Py.frozenset. by destruct (Py.iter v).
Qed.

(** What the serialised metadata holds under [update_fields] can be
    restored whenever the event's own entry could. *)
Lemma serialized_restorable (kwargs d : kwargs_t) :
  _serialize_signal_kwargs kwargs = Ok d →
  update_fields_restorable kwargs = true →
  update_fields_restorable d = true.
Proof.
  intros Hd Hre. pose proof (serialize_spec kwargs) as Hspec.
  destruct (update_fields_iterable kwargs); [|congruence].
  destruct Hspec as (d' & Hd' & Hlookup).
  assert (d' = d) as -> by congruence.
  unfold update_fields_restorable in *. rewrite Hlookup.
  destruct (kwargs !! "update_fields") as [v|]; [simpl|done].
  unfold kept. simpl.
  destruct (bool_decide (v = VNone)) eqn:Hv; simpl.
  - apply bool_decide_eq_true in Hv. by subst v.
  - simpl in Hre. unfold Py.frozenset in *.
    destruct (Py.iter v) as [xs|]; [simpl in *|done].
    by destruct (forallb Py.hashable xs).
Qed.

Lemma restorable_serializes (kwargs : kwargs_t) :
  update_fields_restorable kwargs = true →
  ∃ d, _serialize_signal_kwargs kwargs = Ok d ∧ update_fields_restorable d = true.
Proof.
  intros Hre. pose proof (serialize_spec kwargs) as Hspec.
  rewrite (restorable_iterable kwargs Hre) in Hspec.
  destruct Hspec as (d & Hd & _). exists d. split; [done|].
  by eapply serialized_restorable.
Qed.

(** ** Rebuilding [update_fields] *)

Lemma field_names_hashable (names : list string) :
  forallb Py.hashable (VStr <$> names) = true.
Proof. induction names as [|f names IH]; [done|]. simpl. exact IH. Qed.

Lemma elem_of_field_names (x : pyval) (names : list string) :
  x ∈ (VStr <$> names : list pyval) ↔ ∃ f, x = VStr f ∧ f ∈ names.
Proof. rewrite list_elem_of_fmap. naive_solver. Qed.

(** [frozenset] of a sequence of field names: the names, each once. *)
Lemma frozenset_of_names (names : list string) :
  Py.frozenset (VList (VStr <$> names)) = Ok (VFrozenset (remove_dups (VStr <$> names))).
Proof. unfold Py.frozenset. simpl. by rewrite field_names_hashable. Qed.

(** While [update_fields] is restorable the third block returns, changing
    no key but ["update_fields"]. *)
Lemma reconstruct_update_fields_returns (kwargs : kwargs_t) :
  update_fields_restorable kwargs = true →
  ∃ kwargs', reconstruct_update_fields kwargs = Ok kwargs' ∧
             ∀ k, k ≠ "update_fields" → kwargs' !! k = kwargs !! k.
Proof.
  unfold update_fields_restorable, reconstruct_update_fields.
  destruct (kwargs !! "update_fields") as [v|]; [|by eauto].
  destruct (bool_decide (v = VNone)); [by eauto|]. simpl.
  destruct (Py.frozenset v) as [fs|]; [|done]. intros _.
  eexists. split; [reflexivity|]. intros k Hk. by rewrite lookup_insert_ne.
Qed.

Lemma update_fields_restorable_insert (kwargs : kwargs_t) (k : string) (v : pyval) :
  k ≠ "update_fields" →
  update_fields_restorable (<[k := v]> kwargs) = update_fields_restorable kwargs.
Proof.
  intros Hk. unfold update_fields_restorable. by rewrite lookup_insert_ne.
Qed.

(** ** Names and labels *)

Lemma string_length_app (s t : string) :
  String.length (s ++ t) = String.length s + String.length t.
Proof. induction s as [|c s IH]; [done|]. simpl. by rewrite IH. Qed.

(** Two names with the same suffix appended are the same name. *)
Lemma string_app_inv_tail (s1 s2 t : string) : s1 ++ t = s2 ++ t → s1 = s2.
Proof.
  revert s2. induction s1 as [|c s1 IH]; intros [|c2 s2] H.
  - done.
  - apply (f_equal String.length) in H.
    change (String c2 s2 ++ t) with (String c2 (s2 ++ t)) in H.
    simpl in H. rewrite !string_length_app in H. simpl in H. lia.
  - apply (f_equal String.length) in H.
    change (String c s1 ++ t) with (String c (s1 ++ t)) in H.
    simpl in H. rewrite !string_length_app in H. simpl in H. lia.
  - change (String c (s1 ++ t) = String c2 (s2 ++ t)) in H.
    injection H as -> H. by rewrite (IH s2 H).
Qed.

Lemma has_dot_app (s t : string) : has_dot (s ++ t) = has_dot s || has_dot t.
Proof.
  induction s as [|c s IH]; [done|].
  change (String c s ++ t) with (String c (s ++ t)). simpl.
  by rewrite IH, orb_assoc.
Qed.

Lemma rsplit_dot_no_dot (s : string) : has_dot s = false → Py.rsplit_dot s = None.
Proof.
  induction s as [|c s IH]; [done|]. simpl.
  intros [Hc Hs]%orb_false_iff. by rewrite (IH Hs), Hc.
Qed.

(** Splitting a label at its last dot gives back the two names it was
    built from. *)
Lemma rsplit_dot_label (app name : string) :
  has_dot name = false → Py.rsplit_dot (app ++ "." ++ name) = Some (app, name).
Proof.
  intros Hname. induction app as [|c app IH].
  - change ("" ++ "." ++ name) with (String "."%char name). simpl.
    by rewrite (rsplit_dot_no_dot name Hname).
  - change (String c app ++ "." ++ name) with (String c (app ++ "." ++ name)).
    simpl. by rewrite IH.
Qed.

Lemma label_present_label (cls : ModelClass) :
  label_present (Some (label_of cls)) = Some (label_of cls).
Proof.
  unfold label_present, label_of. by destruct (app_label cls).
Qed.

(** ** The task function *)

Section TaskFunction.

Context (dj : Django).

(** Replace a hypothesis [names_model] or [names_missing_model] by what it
    says, and run the label through the lookup of the current block. *)
Ltac lookup_label H :=
  destruct H as (?l & ?app & ?name & Hl & Hsplit & Hget);
  unfold reconstruct_sender, reconstruct_instance, unpack_label, apps_get_model;
  rewrite Hl, Hsplit; simpl; rewrite Hget; simpl.

(** The task function, block by block. *)
Lemma task_func_invokes sender_label instance_label instance_id signal_kwargs
    sender instance kwargs1 kwargs2 :
  reconstruct_sender dj sender_label = Ok sender →
  reconstruct_instance dj instance_label instance_id signal_kwargs = Ok (instance, kwargs1) →
  reconstruct_update_fields kwargs1 = Ok kwargs2 →
  invokes dj sender_label instance_label instance_id signal_kwargs sender instance kwargs2.
Proof.
  intros Hs Hi Hu func. unfold async_task_func. rewrite Hs. simpl.
  rewrite Hi. simpl. rewrite Hu. reflexivity.
Qed.

Lemma task_func_sender_fails sender_label instance_label instance_id signal_kwargs e :
  reconstruct_sender dj sender_label = Raise e →
  fails_with dj sender_label instance_label instance_id signal_kwargs e.
Proof. intros Hs func. unfold async_task_func. by rewrite Hs. Qed.

Lemma task_func_instance_fails sender_label instance_label instance_id signal_kwargs
    sender e :
  reconstruct_sender dj sender_label = Ok sender →
  reconstruct_instance dj instance_label instance_id signal_kwargs = Raise e →
  fails_with dj sender_label instance_label instance_id signal_kwargs e.
Proof.
  intros Hs Hi func. unfold async_task_func. rewrite Hs. simpl. by rewrite Hi.
Qed.

Lemma task_func_update_fields_fails sender_label instance_label instance_id
    signal_kwargs sender instance kwargs1 e :
  reconstruct_sender dj sender_label = Ok sender →
  reconstruct_instance dj instance_label instance_id signal_kwargs = Ok (instance, kwargs1) →
  reconstruct_update_fields kwargs1 = Raise e →
  fails_with dj sender_label instance_label instance_id signal_kwargs e.
Proof.
  intros Hs Hi Hu func. unfold async_task_func. rewrite Hs. simpl.
  rewrite Hi. simpl. by rewrite Hu.
Qed.

(** The second block leaves every key but ["_instance_pk"] as it was. *)
Lemma reconstruct_instance_lookup instance_label instance_id signal_kwargs
    instance kwargs1 k :
  reconstruct_instance dj instance_label instance_id signal_kwargs = Ok (instance, kwargs1) →
  k ≠ "_instance_pk" →
  kwargs1 !! k = signal_kwargs !! k.
Proof.
  unfold reconstruct_instance. intros H Hk.
  destruct (label_present instance_label) as [l|]; [|by injection H as _ <-].
  destruct (unpack_label l) as [[app name]|]; [simpl in H|done].
  destruct (apps_get_model dj app name) as [cls|]; [simpl in H|done].
  destruct (objects_get dj cls instance_id) as [v|[]]; try done.
  - by injection H as _ <-.
  - injection H as _ <-. by rewrite lookup_insert_ne.
Qed.

Lemma reconstruct_sender_named label cls :
  names_model dj label cls → reconstruct_sender dj label = Ok (VModelClass cls).
Proof. intros H. by lookup_label H. Qed.

Lemma reconstruct_sender_missing label :
  names_missing_model dj label → reconstruct_sender dj label = Raise LookupError.
Proof. intros H. by lookup_label H. Qed.

Lemma reconstruct_sender_resolves label :
  label_resolves dj label → ∃ sender, reconstruct_sender dj label = Ok sender.
Proof.
  intros [Habsent | [cls Hnamed]].
  - exists VNone. unfold reconstruct_sender. by rewrite Habsent.
  - exists (VModelClass cls). by apply reconstruct_sender_named.
Qed.

Lemma reconstruct_instance_missing_model label instance_id signal_kwargs :
  names_missing_model dj label →
  reconstruct_instance dj label instance_id signal_kwargs = Raise LookupError.
Proof. intros H. by lookup_label H. Qed.

Lemma reconstruct_instance_missing_record label instance_id signal_kwargs :
  missing_record dj label instance_id →
  reconstruct_instance dj label instance_id signal_kwargs
  = Ok (VNone, <["_instance_pk" := instance_id]> signal_kwargs).
Proof. intros (cls & H & Hrow). lookup_label H. by rewrite Hrow. Qed.

Lemma reconstruct_instance_found label instance_id signal_kwargs cls instance :
  names_model dj label cls →
  objects_get dj cls instance_id = Ok instance →
  reconstruct_instance dj label instance_id signal_kwargs = Ok (instance, signal_kwargs).
Proof. intros H Hrow. lookup_label H. by rewrite Hrow. Qed.

Lemma label_names_model cls :
  installed dj cls → names_model dj (Some (label_of cls)) cls.
Proof.
  intros [Hget Hname]. exists (label_of cls), (app_label cls), (model_name cls).
  split; [apply label_present_label|]. split; [|done].
  by apply rsplit_dot_label.
Qed.

(** C4 (amended).  When the instance label names an installed model that has
    no record under the given primary key, the sender label is absent or
    names an installed model, and the metadata's [update_fields] entry, if
    any, is null or an iterable of hashable values, the handler is called
    with [instance=None] and with ["_instance_pk"] bound to the submitted
    primary key; the [DoesNotExist] of the lookup does not escape. *)
Theorem deleted_instance_reported sender_label instance_label instance_id
    signal_kwargs :
  missing_record dj instance_label instance_id →
  label_resolves dj sender_label →
  update_fields_restorable signal_kwargs = true →
  handler_told_of_deletion dj sender_label instance_label instance_id signal_kwargs.
Proof.
  intros Hmissing Hsender Hfields.
  destruct (reconstruct_sender_resolves sender_label Hsender) as [sender Hs].
  pose proof (reconstruct_instance_missing_record instance_label instance_id
                signal_kwargs Hmissing) as Hi.
  destruct (reconstruct_update_fields_returns
              (<["_instance_pk" := instance_id]> signal_kwargs)) as (kwargs & Hu & Hsame).
  { by rewrite update_fields_restorable_insert. }
  exists sender, kwargs. split.
  - rewrite Hsame by done. apply lookup_insert_eq.
  - by eapply task_func_invokes.
Qed.

(** C6 (amended).  When the sender label names a model that is not
    installed, or when the sender label is absent or names an installed
    model and the instance label names a model that is not installed, the
    task function raises the [LookupError] of [apps.get_model], which is
    called outside the [try] block, and calls no handler. *)
Theorem missing_model_propagates sender_label instance_label instance_id
    signal_kwargs :
  names_missing_model dj sender_label ∨
  (label_resolves dj sender_label ∧ names_missing_model dj instance_label) →
  fails_with dj sender_label instance_label instance_id signal_kwargs LookupError.
Proof.
  intros [Hsender | [Hsender Hinstance]].
  - by apply task_func_sender_fails, reconstruct_sender_missing.
  - destruct (reconstruct_sender_resolves sender_label Hsender) as [sender Hs].
    eapply task_func_instance_fails; [exact Hs|].
    by apply reconstruct_instance_missing_model.
Qed.

End TaskFunction.

Lemma article_label : names_model blog (Some "blog.article") article.
Proof. exists "blog.article", "blog", "article". repeat split; reflexivity. Qed.

Lemma article_8_missing : missing_record blog (Some "blog.article") (VInt 8).
Proof. exists article. split; [exact article_label|reflexivity]. Qed.

Lemma deleted_instance_reported_witness :
  missing_record blog (Some "blog.article") (VInt 8) ∧
  label_resolves blog (Some "blog.article") ∧
  update_fields_restorable {["created" := VBool true]} = true ∧
  handler_told_of_deletion blog (Some "blog.article") (Some "blog.article") (VInt 8)
    {["created" := VBool true]}.
Proof.
  assert (label_resolves blog (Some "blog.article")) as Hsender
    by (right; exists article; exact article_label).
  split; [exact article_8_missing|]. split; [exact Hsender|]. split; [reflexivity|].
  apply (deleted_instance_reported blog (Some "blog.article") (Some "blog.article")
           (VInt 8) {["created" := VBool true]} article_8_missing Hsender).
  reflexivity.
Defined.

(** C4, as stated, fails: the record is missing and its model resolves, but
    the sender label names a model that is not installed, so the task
    function raises [LookupError] before any handler is called. *)
Lemma deleted_instance_unknown_sender :
  missing_record blog (Some "blog.article") (VInt 8) ∧
  async_task_func blog noop_handler (Some "shop.order") (Some "blog.article") (VInt 8) ∅
    = Raise LookupError ∧
  ¬ handler_told_of_deletion blog (Some "shop.order") (Some "blog.article") (VInt 8) ∅.
Proof.
  split; [exact article_8_missing|].
  assert (async_task_func blog noop_handler (Some "shop.order") (Some "blog.article")
            (VInt 8) ∅ = Raise LookupError) as E by reflexivity.
  split; [exact E|]. intros (sender & kwargs & _ & Hcall).
  specialize (Hcall noop_handler). rewrite E in Hcall. discriminate.
Qed.

Lemma missing_model_propagates_witness :
  (names_missing_model blog (Some "blog.article") ∨
   (label_resolves blog (Some "blog.article") ∧
    names_missing_model blog (Some "shop.order"))) ∧
  fails_with blog (Some "blog.article") (Some "shop.order") (VInt 1) ∅ LookupError.
Proof.
  assert (label_resolves blog (Some "blog.article") ∧
          names_missing_model blog (Some "shop.order")) as Hlabels.
  { split; [right; exists article; exact article_label|].
    exists "shop.order", "shop", "order". repeat split; reflexivity. }
  split; [by right|].
  apply (missing_model_propagates blog (Some "blog.article") (Some "shop.order") (VInt 1) ∅
           (or_intror Hlabels)).
Defined.

(** C6, as stated, fails: the instance label names a model that is not
    installed, but the sender label has no dot, so that the task function
    raises [ValueError] when it unpacks the sender label and never comes
    to the lookup of the instance's model. *)
Lemma missing_model_behind_malformed_sender :
  names_missing_model blog (Some "shop.order") ∧
  async_task_func blog noop_handler (Some "article") (Some "shop.order") (VInt 1) ∅
    = Raise ValueError ∧
  fails_with blog (Some "article") (Some "shop.order") (VInt 1) ∅ ValueError ∧
  ¬ fails_with blog (Some "article") (Some "shop.order") (VInt 1) ∅ LookupError.
Proof.
  split; [exists "shop.order", "shop", "order"; repeat split; reflexivity|].
  assert (async_task_func blog noop_handler (Some "article") (Some "shop.order")
            (VInt 1) ∅ = Raise ValueError) as E by reflexivity.
  split; [exact E|]. split; [by apply task_func_sender_fails|].
  intros Hfails. specialize (Hfails noop_handler). rewrite E in Hfails. discriminate.
Qed.

(** ** The round trip of a set of field names *)

(** C2.  A set [F] of field names travels as follows: whatever order
    [order] its frozenset is iterated in, [_serialize_signal_kwargs] stores
    the names as a list in that order, and the task function's
    reconstruction turns that list into a frozenset whose members are
    exactly the names in [F], each once; that frozenset is what the handler
    is called with, once sender and instance are reconstructed. *)
Theorem update_fields_round_trip (F : gset string) (order : list string)
    (kwargs : kwargs_t) :
  order ≡ₚ elements F →
  kwargs !! "update_fields" = Some (fields_value order) →
  ∃ d d' members,
    _serialize_signal_kwargs kwargs = Ok d ∧
    d !! "update_fields" = Some (VList (VStr <$> order)) ∧
    reconstruct_update_fields d = Ok d' ∧
    d' !! "update_fields" = Some (VFrozenset members) ∧
    NoDup members ∧
    (∀ x, x ∈ members ↔ ∃ f, x = VStr f ∧ f ∈ F) ∧
    same_members (VFrozenset members) (fields_value order) ∧
    ∀ dj sender_label instance_label instance_id sender instance kwargs1,
      reconstruct_sender dj sender_label = Ok sender →
      reconstruct_instance dj instance_label instance_id d = Ok (instance, kwargs1) →
      invokes dj sender_label instance_label instance_id d sender instance
        (<["update_fields" := VFrozenset members]> kwargs1).
Proof.
  intros Horder Huf.
  pose proof (serialize_spec kwargs) as Hspec.
  unfold update_fields_iterable in Hspec. rewrite Huf in Hspec. simpl in Hspec.
  destruct Hspec as (d & Hd & Hlookup).
  assert (d !! "update_fields" = Some (VList (VStr <$> order))) as Hsent
    by (rewrite Hlookup, Huf; reflexivity).
  assert (∀ m : kwargs_t, m !! "update_fields" = Some (VList (VStr <$> order)) →
            reconstruct_update_fields m
            = Ok (<["update_fields" := VFrozenset (remove_dups (VStr <$> order))]> m))
    as Hrestore.
  { intros m Hm. unfold reconstruct_update_fields. rewrite Hm. simpl.
    by rewrite frozenset_of_names. }
  exists d, (<["update_fields" := VFrozenset (remove_dups (VStr <$> order))]> d),
    (remove_dups (VStr <$> order)).
  split; [done|]. split; [done|]. split; [by apply Hrestore|].
  split; [by rewrite lookup_insert_eq|].
  split; [apply NoDup_remove_dups|].
  split; [|split].
  - intros x. rewrite elem_of_remove_dups, elem_of_field_names.
    split; intros (f & -> & Hf); exists f; (split; [done|]).
    + apply elem_of_elements. by rewrite <- Horder.
    + rewrite Horder. by apply elem_of_elements.
  - intros x. simpl. apply elem_of_remove_dups.
  - intros dj sender_label instance_label instance_id sender instance kwargs1 Hs Hi.
    eapply task_func_invokes; [done..|]. apply Hrestore.
    rewrite <- Hsent. by eapply reconstruct_instance_lookup.
Qed.

Lemma update_fields_round_trip_witness :
  ["title"; "body"] ≡ₚ elements ({["body"; "title"]} : gset string) ∧
  example_kwargs !! "update_fields" = Some (fields_value ["title"; "body"]) ∧
  ∃ d d' members,
    _serialize_signal_kwargs example_kwargs = Ok d ∧
    d !! "update_fields" = Some (VList (VStr <$> ["title"; "body"])) ∧
    reconstruct_update_fields d = Ok d' ∧
    d' !! "update_fields" = Some (VFrozenset members) ∧
    NoDup members ∧
    (∀ x, x ∈ members ↔ ∃ f, x = VStr f ∧ f ∈ ({["body"; "title"]} : gset string)) ∧
    same_members (VFrozenset members) (fields_value ["title"; "body"]) ∧
    ∀ dj sender_label instance_label instance_id sender instance kwargs1,
      reconstruct_sender dj sender_label = Ok sender →
      reconstruct_instance dj instance_label instance_id d = Ok (instance, kwargs1) →
      invokes dj sender_label instance_label instance_id d sender instance
        (<["update_fields" := VFrozenset members]> kwargs1).
Proof.
  assert (["title"; "body"] ≡ₚ elements ({["body"; "title"]} : gset string)) as Hperm.
  { vm_compute. first [reflexivity | apply perm_swap]. }
  split; [exact Hperm|]. split; [reflexivity|].
  apply (update_fields_round_trip {["body"; "title"]} ["title"; "body"] example_kwargs
           Hperm eq_refl).
Defined.

(** ** A null [update_fields] *)

(** C10.  When the event carries [update_fields=None], the serialised
    metadata keeps the key with the value [None]; the reconstruction of
    [update_fields] in the task function returns the metadata unchanged;
    and once sender and instance are reconstructed the handler is called
    with [update_fields=None]. *)
Theorem null_update_fields_preserved (kwargs : kwargs_t) :
  kwargs !! "update_fields" = Some VNone →
  ∃ d, _serialize_signal_kwargs kwargs = Ok d ∧
       d !! "update_fields" = Some VNone ∧
       reconstruct_update_fields d = Ok d ∧
       ∀ dj sender_label instance_label instance_id sender instance kwargs1,
         reconstruct_sender dj sender_label = Ok sender →
         reconstruct_instance dj instance_label instance_id d = Ok (instance, kwargs1) →
         kwargs1 !! "update_fields" = Some VNone ∧
         invokes dj sender_label instance_label instance_id d sender instance kwargs1.
Proof.
  intros Huf. pose proof (serialize_spec kwargs) as Hspec.
  unfold update_fields_iterable in Hspec. rewrite Huf in Hspec. simpl in Hspec.
  destruct Hspec as (d & Hd & Hlookup).
  assert (d !! "update_fields" = Some VNone) as Hkept
    by (rewrite Hlookup, Huf; reflexivity).
  exists d. split; [done|]. split; [done|]. split.
  { unfold reconstruct_update_fields. by rewrite Hkept. }
  intros dj sender_label instance_label instance_id sender instance kwargs1 Hs Hi.
  assert (kwargs1 !! "update_fields" = Some VNone) as Hkept1.
  { rewrite <- Hkept. by eapply reconstruct_instance_lookup. }
  split; [done|]. eapply task_func_invokes; [done..|].
  unfold reconstruct_update_fields. by rewrite Hkept1.
Qed.

Lemma null_update_fields_preserved_witness :
  created_kwargs !! "update_fields" = Some VNone ∧
  ∃ d, _serialize_signal_kwargs created_kwargs = Ok d ∧
       d !! "update_fields" = Some VNone ∧
       reconstruct_update_fields d = Ok d ∧
       ∀ dj sender_label instance_label instance_id sender instance kwargs1,
         reconstruct_sender dj sender_label = Ok sender →
         reconstruct_instance dj instance_label instance_id d = Ok (instance, kwargs1) →
         kwargs1 !! "update_fields" = Some VNone ∧
         invokes dj sender_label instance_label instance_id d sender instance kwargs1.
Proof.
  split; [reflexivity|]. apply (null_update_fields_preserved created_kwargs). reflexivity.
Defined.

(** ** The wrapper *)

(** The wrapper, step by step: each step that raises ends the call with
    the process as it was; the guard ends it without an exception; else
    one task is queued. *)
Lemma signal_handler_unfold (task_path : string) (kwargs : kwargs_t) (p : Process) :
  signal_handler task_path kwargs p =
    match is_django_q (kwargs_get kwargs "sender") with
    | Raise e => (Raise e, p)
    | Ok true => (Ok tt, p)
    | Ok false =>
        match _get_model_label (kwargs_get kwargs "sender") with
        | Raise e => (Raise e, p)
        | Ok sender_label =>
            match _get_model_label (kwargs_get kwargs "instance") with
            | Raise e => (Raise e, p)
            | Ok instance_label =>
                match _serialize_signal_kwargs kwargs with
                | Raise e => (Raise e, p)
                | Ok d =>
                    match pk_or_none (kwargs_get kwargs "instance") with
                    | Raise e => (Raise e, p)
                    | Ok pk =>
                        (Ok tt,
                         enqueue {| task_path_of := task_path;
                                    task_sender_label := sender_label;
                                    task_instance_label := instance_label;
                                    task_instance_id := pk;
                                    task_kwargs := d |} p)
                    end
                end
            end
        end
    end.
Proof.
  unfold signal_handler, mbind, Exec_bind, lift, mret, Exec_ret, async_task.
  destruct (is_django_q _) as [[]|]; reflexivity.
Qed.

(** A call of the wrapper queues nothing, or exactly one task under the
    wrapper's task path. *)
Lemma signal_handler_effect (task_path : string) (kwargs : kwargs_t) (p : Process) :
  (signal_handler task_path kwargs p).2 = p ∨
  ∃ t, signal_handler task_path kwargs p = (Ok tt, enqueue t p) ∧
       task_path_of t = task_path.
Proof.
  rewrite signal_handler_unfold.
  destruct (is_django_q _) as [[]|]; try (by left).
  destruct (_get_model_label (kwargs_get kwargs "sender")); [|by left].
  destruct (_get_model_label (kwargs_get kwargs "instance")); [|by left].
  destruct (_serialize_signal_kwargs kwargs); [|by left].
  destruct (pk_or_none _); [|by left].
  right. by eexists.
Qed.

Lemma for_each_cons {A} (body : A → Exec unit) (x : A) (xs : list A) (p : Process) :
  for_each body (x :: xs) p =
    match body x p with
    | (Ok _, p') => for_each body xs p'
    | (Raise e, p') => (Raise e, p')
    end.
Proof. reflexivity. Qed.

(** A loop whose every turn leaves the process alone leaves it alone. *)
Lemma for_each_unchanged {A} (body : A → Exec unit) (xs : list A) (p : Process) :
  (∀ x, x ∈ xs → (body x p).2 = p) → (for_each body xs p).2 = p.
Proof.
  induction xs as [|x xs IH]; intros Hbody; [done|].
  rewrite for_each_cons.
  pose proof (Hbody x ltac:(left)) as Hx.
  destruct (body x p) as [[[]|e] p']; simpl in Hx; subst p'; [|done].
  apply IH. intros y Hy. apply Hbody. by right.
Qed.

(** The task the wrapper queues for an event with a model class as sender
    and a model instance. *)
Lemma signal_handler_submission task_path kwargs S cls pk p p' t :
  event_of kwargs S cls pk →
  signal_handler task_path kwargs p = (Ok tt, p') →
  queue p' = (queue p ++ [t])%list →
  ∃ d, _serialize_signal_kwargs kwargs = Ok d ∧
       t = {| task_path_of := task_path;
              task_sender_label := Some (label_of S);
              task_instance_label := Some (label_of cls);
              task_instance_id := pk;
              task_kwargs := d |}.
Proof.
  intros [Hsender [fields Hinstance]]. rewrite signal_handler_unfold.
  unfold kwargs_get. rewrite Hsender, Hinstance. simpl.
  destruct (String.eqb (app_label S) "django_q").
  { intros [= <-] Hq. apply (f_equal length) in Hq.
    rewrite length_app in Hq. simpl in Hq. lia. }
  destruct (_serialize_signal_kwargs kwargs) as [d|]; [|done].
  intros [= <-] Hq. simpl in Hq. apply app_inv_head in Hq.
  exists d. split; [done|]. by injection Hq as <-.
Qed.

(** C5.  For a sender whose app label is ["django_q"]: the wrapper of any
    handler returns at once, leaving the process, and so the task queue, as
    it was; and sending any signal with that sender, to whatever receivers
    are connected, leaves the process as it was. *)
Theorem django_q_sender_never_enqueues (cls : ModelClass) :
  app_label cls = "django_q" →
  (∀ task_path kwargs p,
     kwargs !! "sender" = Some (VModelClass cls) →
     signal_handler task_path kwargs p = (Ok tt, p)) ∧
  (∀ s named p, (send s (Some cls) named p).2 = p).
Proof.
  intros Hlabel.
  assert (∀ task_path kwargs p,
            kwargs !! "sender" = Some (VModelClass cls) →
            signal_handler task_path kwargs p = (Ok tt, p)) as Hwrapper.
  { intros task_path kwargs p Hsender. rewrite signal_handler_unfold.
    unfold kwargs_get. rewrite Hsender. simpl. by rewrite Hlabel. }
  split; [exact Hwrapper|].
  intros s named p. unfold send.
  destruct (bool_decide (_ ∨ _)); [done|].
  destruct (receivers_of p s) as [|c0 cs]; [done|].
  destruct (use_caching s && _); [done|].
  apply for_each_unchanged.
  intros c _. unfold call_receiver.
  destruct (bool_decide _); [done|].
  rewrite Hwrapper; [done|].
  rewrite lookup_insert_ne by done. apply lookup_insert_eq.
Qed.

Lemma django_q_sender_never_enqueues_witness :
  app_label django_q_task = "django_q" ∧
  (∀ task_path kwargs p,
     kwargs !! "sender" = Some (VModelClass django_q_task) →
     signal_handler task_path kwargs p = (Ok tt, p)) ∧
  (∀ s named p, (send s (Some django_q_task) named p).2 = p).
Proof.
  split; [reflexivity|]. apply (django_q_sender_never_enqueues django_q_task). reflexivity.
Defined.

(** ** From the event to the handler call *)

(** Unless its sender belongs to [django_q], an event with a model class
    as sender and a model instance is queued. *)
Lemma event_submits kwargs S cls pk :
  event_of kwargs S cls pk →
  app_label S ≠ "django_q" →
  update_fields_iterable kwargs = true →
  submits kwargs.
Proof.
  intros [Hsender [fields Hinstance]] Hguard Hiter task_path p.
  pose proof (serialize_spec kwargs) as Hspec. rewrite Hiter in Hspec.
  destruct Hspec as (d & Hd & _).
  rewrite signal_handler_unfold. unfold kwargs_get.
  rewrite Hsender, Hinstance, Hd. simpl.
  apply String.eqb_neq in Hguard. rewrite Hguard.
  by eexists.
Qed.

Section Replay.

Context (dj : Django).

(** C1 (amended).  Take an event whose sender [S] is an installed model,
    whose instance has an installed model and a record stored under its
    primary key when the task runs, and whose [update_fields] entry, if
    any, is null or an iterable of hashable values.  Then running the task
    function on exactly the arguments the wrapper queued calls the handler
    with the sender [S] and with an instance of the same model and the same
    primary key (the field values are those stored now).  The wrapper does
    queue such a task unless [S] belongs to the ["django_q"] app. *)
Theorem event_replayed kwargs S cls pk :
  event_of kwargs S cls pk →
  installed dj S →
  installed dj cls →
  stored dj cls pk →
  update_fields_restorable kwargs = true →
  replayed dj kwargs S cls pk ∧
  (app_label S ≠ "django_q" → submits kwargs).
Proof.
  intros Hevent HS Hcls [fields Hrow] Hfields. split.
  2: { intros Hguard. eapply event_submits; [done..|]. by apply restorable_iterable. }
  intros task_path p p' t Hcall Hq.
  destruct (signal_handler_submission _ _ _ _ _ _ _ _ Hevent Hcall Hq) as (d & Hd & ->).
  simpl.
  destruct (reconstruct_update_fields_returns d) as (kwargs' & Hu & _).
  { by eapply serialized_restorable. }
  exists fields, kwargs'.
  eapply task_func_invokes; [| |done].
  - by apply reconstruct_sender_named, label_names_model.
  - eapply reconstruct_instance_found; [by apply label_names_model|done].
Qed.

(** C9 (amended).  For every event with [instance=None] whose sender is
    [None] or an installed model outside the ["django_q"] app, and whose
    [update_fields] entry, if any, is null or an iterable of hashable
    values: the wrapper raises nothing and queues one task with a null
    instance label and a null primary key, and the task function run on
    that task calls the handler with [instance=None]. *)
Theorem none_instance_handled kwargs :
  kwargs_get kwargs "instance" = VNone →
  sender_none_or_installed dj kwargs (λ S, app_label S ≠ "django_q") →
  update_fields_restorable kwargs = true →
  none_instance_replayed dj kwargs.
Proof.
  intros Hinstance Hsender Hfields task_path p.
  destruct (restorable_serializes kwargs Hfields) as (d & Hd & Hre).
  destruct (reconstruct_update_fields_returns d Hre) as (kwargs' & Hu & _).
  rewrite signal_handler_unfold, Hinstance, Hd.
  destruct Hsender as [Hnone | (S & HS & Hinst & Hallowed)].
  - rewrite Hnone. simpl. eexists. split; [reflexivity|]. simpl.
    split; [done|]. split; [done|]. exists VNone, kwargs'.
    by eapply task_func_invokes.
  - unfold kwargs_get. rewrite HS. simpl.
    apply String.eqb_neq in Hallowed. rewrite Hallowed.
    eexists. split; [reflexivity|]. simpl.
    split; [done|]. split; [done|]. exists (VModelClass S), kwargs'.
    eapply task_func_invokes; [|done..].
    by apply reconstruct_sender_named, label_names_model.
Qed.

End Replay.

Lemma article_installed : installed blog article.
Proof. split; reflexivity. Qed.

Lemma article_7_stored : stored blog article (VInt 7).
Proof. by exists [("title", VStr "Edited")]. Qed.

Lemma example_event : event_of example_kwargs article article (VInt 7).
Proof. split; [reflexivity|]. by exists [("title", VStr "Hello")]. Qed.

Lemma event_replayed_witness :
  event_of example_kwargs article article (VInt 7) ∧
  installed blog article ∧
  stored blog article (VInt 7) ∧
  update_fields_restorable example_kwargs = true ∧
  replayed blog example_kwargs article article (VInt 7) ∧
  (app_label article ≠ "django_q" → submits example_kwargs).
Proof.
  split; [exact example_event|]. split; [exact article_installed|].
  split; [exact article_7_stored|]. split; [reflexivity|].
  apply (event_replayed blog example_kwargs article article (VInt 7)
           example_event article_installed article_installed article_7_stored).
  reflexivity.
Defined.

(** C1, as stated, fails: for this event the wrapper queues a task, but
    [frozenset] cannot hash the inner list, so the task function raises
    [TypeError] and the handler is not called. *)
Lemma event_with_unhashable_fields_not_replayed :
  event_of nested_kwargs article article (VInt 7) ∧
  installed blog article ∧
  stored blog article (VInt 7) ∧
  signal_handler "blog.signals.handler_task" nested_kwargs idle
    = (Ok tt, enqueue nested_task idle) ∧
  async_task_func blog noop_handler (task_sender_label nested_task)
    (task_instance_label nested_task) (task_instance_id nested_task)
    (task_kwargs nested_task) = Raise TypeError ∧
  ¬ replayed blog nested_kwargs article article (VInt 7).
Proof.
  assert (event_of nested_kwargs article article (VInt 7)) as Hevent.
  { split; [reflexivity|]. by exists [("title", VStr "Hello")]. }
  assert (signal_handler "blog.signals.handler_task" nested_kwargs idle
          = (Ok tt, enqueue nested_task idle)) as Hcall by (vm_compute; reflexivity).
  assert (async_task_func blog noop_handler (task_sender_label nested_task)
            (task_instance_label nested_task) (task_instance_id nested_task)
            (task_kwargs nested_task) = Raise TypeError) as Hrun by (vm_compute; reflexivity).
  split; [exact Hevent|]. split; [exact article_installed|].
  split; [exact article_7_stored|]. split; [exact Hcall|]. split; [exact Hrun|].
  intros Hreplayed.
  destruct (Hreplayed _ _ _ nested_task Hcall eq_refl) as (fields & kwargs' & Hinvokes).
  specialize (Hinvokes noop_handler). rewrite Hrun in Hinvokes. discriminate.
Qed.

Lemma none_instance_handled_witness :
  kwargs_get bare_kwargs "instance" = VNone ∧
  sender_none_or_installed blog bare_kwargs (λ S, app_label S ≠ "django_q") ∧
  update_fields_restorable bare_kwargs = true ∧
  none_instance_replayed blog bare_kwargs.
Proof.
  assert (sender_none_or_installed blog bare_kwargs (λ S, app_label S ≠ "django_q"))
    as Hsender.
  { right. exists article. split; [reflexivity|]. split; [exact article_installed|].
    discriminate. }
  split; [reflexivity|]. split; [exact Hsender|]. split; [reflexivity|].
  apply (none_instance_handled blog bare_kwargs eq_refl Hsender). reflexivity.
Defined.

(** C9, as stated, fails: [django_q.task] is an installed model, and for an
    event it sends with [instance=None] the wrapper returns without
    queueing anything. *)
Lemma none_instance_from_django_q_not_enqueued :
  kwargs_get {["sender" := VModelClass django_q_task; "instance" := VNone]} "instance"
    = VNone ∧
  sender_none_or_installed cluster
    {["sender" := VModelClass django_q_task; "instance" := VNone]} (λ _, True) ∧
  signal_handler "blog.signals.handler_task"
    {["sender" := VModelClass django_q_task; "instance" := VNone]} idle = (Ok tt, idle) ∧
  ¬ none_instance_replayed cluster
      {["sender" := VModelClass django_q_task; "instance" := VNone]}.
Proof.
  split; [reflexivity|]. split.
  { right. exists django_q_task. split; [reflexivity|]. by split. }
  assert (signal_handler "blog.signals.handler_task"
            {["sender" := VModelClass django_q_task; "instance" := VNone]} idle
          = (Ok tt, idle)) as Hcall by reflexivity.
  split; [exact Hcall|].
  intros Hreplayed.
  destruct (Hreplayed "blog.signals.handler_task" idle) as (t & Ht & _).
  rewrite Hcall in Ht. apply (f_equal (λ r, length (queue r.2))) in Ht.
  simpl in Ht. discriminate.
Qed.

(** ** The registrar *)

Lemma receivers_of_set_receivers s rs p s' :
  receivers_of (set_receivers s rs p) s' = if decide (s = s') then rs else receivers_of p s'.
Proof.
  unfold receivers_of, set_receivers. simpl. destruct (decide (s = s')) as [->|Hne].
  - by rewrite lookup_insert_eq.
  - by rewrite lookup_insert_ne.
Qed.

(** [connect] never raises and touches only the receivers of its signal:
    they stay as they are when the lookup key is taken, else the new entry
    goes last. *)
Lemma connect_spec s w sender options p :
  ∃ p', connect s w sender options p = (Ok tt, p') ∧
        queue p' = queue p ∧
        sys_modules p' = sys_modules p ∧
        next_id p' = next_id p ∧
        (∀ s', s' ≠ s → receivers_of p' s' = receivers_of p s') ∧
        receivers_of p' s =
          if key_taken (connection_of w sender options) (receivers_of p s)
          then receivers_of p s
          else (receivers_of p s ++ [connection_of w sender options])%list.
Proof.
  unfold connect, connection_of, key_taken. simpl.
  destruct (existsb _ (receivers_of p s)) eqn:Htaken.
  - exists p. repeat split; try done.
  - eexists. split; [reflexivity|]. repeat split; try done.
    + intros s' Hne. rewrite receivers_of_set_receivers. by rewrite decide_False.
    + rewrite receivers_of_set_receivers. by rewrite decide_True.
Qed.

Lemma key_taken_self (c : Connection) (rs : list Connection) :
  key_taken c (rs ++ [c]) = true.
Proof.
  unfold key_taken. rewrite existsb_app. simpl.
  rewrite bool_decide_eq_true_2 by done. by rewrite orb_true_r.
Qed.

(** Connecting one wrapper to a list of signals, exactly: every signal of
    the list whose receivers do not hold the lookup key yet gets the entry
    once, at the end; nothing else changes. *)
Lemma connect_all_exact ss w filter options p :
  ∃ p', for_each (λ s, connect s w filter options) ss p = (Ok tt, p') ∧
        queue p' = queue p ∧
        sys_modules p' = sys_modules p ∧
        next_id p' = next_id p ∧
        ∀ s, receivers_of p' s =
             if bool_decide (s ∈ ss)
                && negb (key_taken (connection_of w filter options) (receivers_of p s))
             then (receivers_of p s ++ [connection_of w filter options])%list
             else receivers_of p s.
Proof.
  revert p. induction ss as [|s0 ss IH]; intros p.
  - exists p. by repeat split.
  - rewrite for_each_cons.
    destruct (connect_spec s0 w filter options p)
      as (p1 & -> & Hq1 & Hm1 & Hn1 & Hother & Hthis).
    destruct (IH p1) as (p' & -> & Hq & Hm & Hn & Hconn).
    exists p'. split; [done|]. repeat split; try congruence.
    intros s. rewrite Hconn.
    destruct (decide (s = s0)) as [->|Hne].
    + rewrite Hthis. rewrite (bool_decide_eq_true_2 (s0 ∈ s0 :: ss)) by left. simpl.
      destruct (key_taken _ (receivers_of p s0)) eqn:Htaken; simpl.
      * by rewrite Htaken, andb_false_r.
      * by rewrite key_taken_self, andb_false_r.
    + rewrite (Hother s Hne).
      assert (bool_decide (s ∈ s0 :: ss) = bool_decide (s ∈ ss)) as ->; [|done].
      apply bool_decide_ext. rewrite elem_of_cons.
      split; [by intros [Heq|Hin] | by right].
Qed.

Lemma install_spec module_name name value p ns :
  sys_modules p !! module_name = Some ns →
  ∃ p', install module_name name value p = (Ok tt, p') ∧
        queue p' = queue p ∧
        receivers p' = receivers p ∧
        next_id p' = next_id p ∧
        sys_modules p' = <[module_name := <[name := value]> ns]> (sys_modules p).
Proof.
  intros Hns. unfold install. rewrite Hns. by eexists.
Qed.

(** At the end of the decorator the entries that hold the closure weakly
    are gone; the others keep their places. *)
Lemma receivers_of_end_of_scope w p s :
  receivers_of (end_of_scope w p).2 s
  = filter (λ c, held_weakly w c = false) (receivers_of p s).
Proof.
  unfold receivers_of, end_of_scope. simpl. rewrite lookup_fmap.
  by destruct (receivers p !! s).
Qed.

(** The decorator, once the module is found: the task function is
    installed, the wrapper is made, the connections follow, and the
    decorator's scope ends. *)
Lemma async_receiver_steps signal sender options func p ns :
  sys_modules p !! func_module func = Some ns →
  async_receiver signal sender options func p =
    let p2 := {| queue := queue p;
                 receivers := receivers p;
                 sys_modules := <[func_module func :=
                                    <[task_name func := TaskFunction func]> ns]>
                                  (sys_modules p);
                 next_id := N.succ (next_id p) |} in
    match for_each (λ s, connect s (wrapper_of p func) sender options)
            (signals_of signal) p2 with
    | (Ok _, p3) => (Ok func, (end_of_scope (wrapper_of p func) p3).2)
    | (Raise e, p') => (Raise e, p')
    end.
Proof.
  intros Hns. unfold async_receiver, _create_async_task_wrapper, install, new_closure.
  unfold mbind, Exec_bind, mret, Exec_ret. rewrite Hns. simpl.
  destruct signal as [s|ss]; simpl; [|done].
  unfold wrapper_of, task_path, task_name. unfold mbind, Exec_bind.
  by destruct (connect s _ sender options _) as [[[]|e] p3].
Qed.

(** The decorator on a loaded module, step by step: it returns [func]
    itself, queues nothing, uses one identity, binds the task function,
    connects the wrapper where its key is free, and drops the entries that
    hold the wrapper weakly. *)
Lemma async_receiver_run signal sender options func p ns :
  sys_modules p !! func_module func = Some ns →
  ∃ p', async_receiver signal sender options func p = (Ok func, p') ∧
        queue p' = queue p ∧
        next_id p' = N.succ (next_id p) ∧
        sys_modules p' =
          <[func_module func := <[task_name func := TaskFunction func]> ns]> (sys_modules p) ∧
        ∀ s, receivers_of p' s =
             filter (λ c, held_weakly (wrapper_of p func) c = false)
               (if bool_decide (s ∈ signals_of signal)
                   && negb (key_taken (connection_of (wrapper_of p func) sender options)
                              (receivers_of p s))
                then (receivers_of p s
                        ++ [connection_of (wrapper_of p func) sender options])%list
                else receivers_of p s).
Proof.
  intros Hns. rewrite (async_receiver_steps _ _ _ _ _ ns Hns). cbv zeta.
  set (p2 := {| queue := queue p; receivers := receivers p;
                sys_modules := _; next_id := _ |}).
  destruct (connect_all_exact (signals_of signal) (wrapper_of p func) sender options p2)
    as (p3 & -> & Hq & Hm & Hn & Hconn).
  eexists. split; [reflexivity|]. split; [done|]. split; [done|]. split; [done|].
  intros s. by rewrite receivers_of_end_of_scope, Hconn.
Qed.

(** What a receiver entry found after the decoration is: one that was
    there before, or the entry of the new wrapper under one of the signals
    given. *)
Lemma async_receiver_spec signal sender options func p ns :
  sys_modules p !! func_module func = Some ns →
  ∃ p', async_receiver signal sender options func p = (Ok func, p') ∧
        queue p' = queue p ∧
        sys_modules p' =
          <[func_module func := <[task_name func := TaskFunction func]> ns]> (sys_modules p) ∧
        ∀ s c, c ∈ receivers_of p' s →
               c ∈ receivers_of p s ∨
               (s ∈ signals_of signal ∧
                c = connection_of (wrapper_of p func) sender options).
Proof.
  intros Hns.
  destruct (async_receiver_run signal sender options func p ns Hns)
    as (p' & Hrun & Hq & _ & Hm & Hconn).
  exists p'. split; [done|]. split; [done|]. split; [done|].
  intros s c Hc. rewrite Hconn in Hc. apply list_elem_of_filter in Hc as [_ Hc].
  destruct (bool_decide (s ∈ signals_of signal)) eqn:Hs; simpl in Hc; [|by left].
  apply bool_decide_eq_true in Hs.
  destruct (key_taken _ _); simpl in Hc; [by left|].
  apply elem_of_app in Hc as [Hold | ->%list_elem_of_singleton]; [by left|by right].
Qed.

(** C7 (amended).  Decorating a handler [func] whose module is loaded
    succeeds and returns [func]; the task name is [func]'s name followed by
    ["_task"]; the task function generated for [func] is bound to that name
    in [func]'s module, replacing whatever was bound there, and no other
    attribute of any module changes; the wrapper connected by this
    decoration queues its tasks under the path
    ["<module>.<name>_task"], which resolves to that task function when
    the name has no dot; and the task name determines the handler's name,
    so that handlers of one module with different names never share a
    binding. *)
Theorem task_function_registered signal sender options func p ns :
  sys_modules p !! func_module func = Some ns →
  ∃ p', async_receiver signal sender options func p = (Ok func, p') ∧
    task_name func = func_name func ++ "_task" ∧
    bound_at p' (func_module func) (task_name func) = Some (TaskFunction func) ∧
    (∀ m n, (m, n) ≠ (func_module func, task_name func) →
            bound_at p' m n = bound_at p m n) ∧
    (∀ s c, c ∈ receivers_of p' s → c ∉ receivers_of p s →
       wrapper_task_path (conn_receiver c)
         = func_module func ++ "." ++ func_name func ++ "_task" ∧
       ∀ kwargs q, (signal_handler (wrapper_task_path (conn_receiver c)) kwargs q).2 = q ∨
                   ∃ t, signal_handler (wrapper_task_path (conn_receiver c)) kwargs q
                          = (Ok tt, enqueue t q) ∧
                        task_path_of t
                          = func_module func ++ "." ++ func_name func ++ "_task") ∧
    (has_dot (func_name func) = false →
     resolve_task p' (task_path func) = Some (TaskFunction func)) ∧
    (∀ g, task_name g = task_name func ↔ func_name g = func_name func).
Proof.
  intros Hns.
  destruct (async_receiver_spec signal sender options func p ns Hns)
    as (p' & Hrun & Hq & Hm & Hconn).
  assert (bound_at p' (func_module func) (task_name func) = Some (TaskFunction func))
    as Hbound.
  { unfold bound_at. rewrite Hm, lookup_insert_eq. simpl. apply lookup_insert_eq. }
  exists p'. split; [done|]. split; [done|]. split; [done|].
  split; [|split; [|split]].
  - intros m n Hne. unfold bound_at. rewrite Hm.
    destruct (decide (m = func_module func)) as [->|Hm'].
    + rewrite lookup_insert_eq, Hns. simpl. apply lookup_insert_ne. congruence.
    + by rewrite lookup_insert_ne.
  - intros s c Hc Hnew. destruct (Hconn s c Hc) as [Hold | [_ ->]]; [done|].
    simpl. split; [done|]. intros kwargs q.
    apply (signal_handler_effect (task_path func) kwargs q).
  - intros Hname. unfold resolve_task, task_path.
    rewrite rsplit_dot_label by (unfold task_name; by rewrite has_dot_app, Hname).
    exact Hbound.
  - intros g. unfold task_name. split; [apply string_app_inv_tail | by intros ->].
Qed.

Lemma task_function_registered_witness :
  sys_modules idle !! func_module noop_handler = Some ∅ ∧
  ∃ p', async_receiver (One "post_save") (Some article) held_strongly noop_handler idle
          = (Ok noop_handler, p') ∧
    task_name noop_handler = func_name noop_handler ++ "_task" ∧
    bound_at p' (func_module noop_handler) (task_name noop_handler)
      = Some (TaskFunction noop_handler) ∧
    (∀ m n, (m, n) ≠ (func_module noop_handler, task_name noop_handler) →
            bound_at p' m n = bound_at idle m n) ∧
    (∀ s c, c ∈ receivers_of p' s → c ∉ receivers_of idle s →
       wrapper_task_path (conn_receiver c)
         = func_module noop_handler ++ "." ++ func_name noop_handler ++ "_task" ∧
       ∀ kwargs q, (signal_handler (wrapper_task_path (conn_receiver c)) kwargs q).2 = q ∨
                   ∃ t, signal_handler (wrapper_task_path (conn_receiver c)) kwargs q
                          = (Ok tt, enqueue t q) ∧
                        task_path_of t
                          = func_module noop_handler ++ "." ++ func_name noop_handler
                            ++ "_task") ∧
    (has_dot (func_name noop_handler) = false →
     resolve_task p' (task_path noop_handler) = Some (TaskFunction noop_handler)) ∧
    (∀ g, task_name g = task_name noop_handler ↔ func_name g = func_name noop_handler).
Proof.
  split; [reflexivity|].
  apply (task_function_registered (One "post_save") (Some article) held_strongly
           noop_handler idle ∅ eq_refl).
Defined.

(** C7, as stated, fails: two different handlers with the same name in the
    same module get the same task name and path, and decorating the second
    replaces the task function of the first, so a task queued for the
    first handler runs the second. *)
Lemma same_name_handlers_collide :
  noop_handler ≠ other_handler ∧
  task_path noop_handler = task_path other_handler ∧
  ¬ task_names_unique ∧
  ¬ binding_stable.
Proof.
  assert (noop_handler ≠ other_handler) as Hne.
  { intros H. apply (f_equal (λ h, handler_of h VNone VNone ∅)) in H. discriminate. }
  split; [exact Hne|]. split; [reflexivity|]. split.
  - intros Hunique. by apply (Hunique _ _ Hne).
  - intros Hstable.
    destruct (async_receiver (One "post_save") None held_strongly noop_handler idle)
      as [o1 p1] eqn:H1.
    destruct (async_receiver (One "post_save") None held_strongly other_handler p1)
      as [o2 p2] eqn:H2.
    assert (o1 = Ok noop_handler) as -> by (by vm_compute in H1; injection H1 as <- _).
    assert (resolve_task p1 (task_path noop_handler) = Some (TaskFunction noop_handler))
      as Hfirst by (vm_compute in H1; injection H1 as <-; reflexivity).
    assert (o2 = Ok other_handler ∧
            resolve_task p2 (task_path noop_handler) = Some (TaskFunction other_handler))
      as [-> Hsecond].
    { vm_compute in H1. injection H1 as <-. vm_compute in H2. injection H2 as <- <-.
      by split. }
    specialize (Hstable _ _ _ _ _ _ _ _ _ _ _ Hne H1 H2).
    rewrite Hfirst, Hsecond in Hstable. injection Hstable as Hsame.
    apply (f_equal (λ f, f VNone VNone ∅)) in Hsame. discriminate.
Qed.

(** ** What a decoration leaves connected *)

Lemma filter_all {A} (P : A → Prop) `{!∀ x, Decision (P x)} (l : list A) :
  Forall P l → filter P l = l.
Proof.
  induction 1 as [|x l Hx _ IH]; [done|].
  rewrite filter_cons_True by done. by rewrite IH.
Qed.

(** No receiver of a process with fresh identities holds the wrapper that
    the next decoration makes. *)
Lemma ids_fresh_not_held p func s :
  ids_fresh p →
  Forall (λ c, held_weakly (wrapper_of p func) c = false) (receivers_of p s).
Proof.
  intros Hfresh. apply Forall_forall. intros c Hc.
  destruct (Hfresh s c Hc) as [Hid _]. unfold held_weakly, wrapper_of. simpl.
  rewrite bool_decide_eq_false_2 by lia. apply andb_false_r.
Qed.

(** Without a [dispatch_uid] that counts, the lookup key of a new wrapper
    is its identity, which no entry has. *)
Lemma fresh_key_free p func filter options s :
  ids_fresh p →
  lookup_key (wrapper_of p func) (opt_dispatch_uid options) = inr (next_id p) →
  key_taken (connection_of (wrapper_of p func) filter options) (receivers_of p s) = false.
Proof.
  intros Hfresh Hkey. unfold key_taken, connection_of. simpl. rewrite Hkey.
  apply not_true_is_false. intros (c & Hc & Htaken)%existsb_exists.
  apply bool_decide_eq_true in Htaken as [Hk _].
  apply list_elem_of_In in Hc. destruct (Hfresh s c Hc) as [_ Hlt].
  specialize (Hlt _ Hk). lia.
Qed.

(** The decoration, exactly, in a process with fresh identities.  With
    [weak=False] each signal given whose receivers do not hold the lookup
    key and sender yet gets the wrapper as its last receiver; with [weak]
    true or left out no receiver list changes. *)
Lemma async_receiver_exact signal filter options func p ns :
  sys_modules p !! func_module func = Some ns →
  ids_fresh p →
  ∃ p', async_receiver signal filter options func p = (Ok func, p') ∧
        queue p' = queue p ∧
        next_id p' = N.succ (next_id p) ∧
        sys_modules p' =
          <[func_module func := <[task_name func := TaskFunction func]> ns]> (sys_modules p) ∧
        ids_fresh p' ∧
        ∀ s, receivers_of p' s =
             if negb (default true (opt_weak options))
                && bool_decide (s ∈ signals_of signal)
                && negb (key_taken (connection_of (wrapper_of p func) filter options)
                           (receivers_of p s))
             then (receivers_of p s
                     ++ [connection_of (wrapper_of p func) filter options])%list
             else receivers_of p s.
Proof.
  intros Hns Hfresh.
  destruct (async_receiver_run signal filter options func p ns Hns)
    as (p' & Hrun & Hq & Hn & Hm & Hconn).
  set (c := connection_of (wrapper_of p func) filter options) in *.
  assert (∀ s, receivers_of p' s =
               if negb (default true (opt_weak options))
                  && bool_decide (s ∈ signals_of signal)
                  && negb (key_taken c (receivers_of p s))
               then (receivers_of p s ++ [c])%list
               else receivers_of p s) as Hexact.
  { intros s. rewrite Hconn.
    pose proof (filter_all _ _ (ids_fresh_not_held p func s Hfresh)) as Hold.
    destruct (bool_decide (s ∈ signals_of signal)); simpl;
      [|by rewrite andb_false_r].
    destruct (key_taken c (receivers_of p s)); simpl;
      [by rewrite andb_false_r|].
    rewrite !andb_true_r, filter_app, Hold.
    assert (held_weakly (wrapper_of p func) c = default true (opt_weak options)) as Hc.
    { unfold held_weakly, c, connection_of. simpl.
      rewrite bool_decide_eq_true_2 by done. apply andb_true_r. }
    destruct (default true (opt_weak options)); simpl.
    - rewrite filter_cons_False by (by rewrite Hc). by rewrite filter_nil, app_nil_r.
    - by rewrite filter_cons_True, filter_nil by done. }
  exists p'. split; [done|]. split; [done|]. split; [done|]. split; [done|].
  split; [|exact Hexact].
  intros s c' Hc'. rewrite Hn. rewrite Hexact in Hc'.
  assert (c' ∈ receivers_of p s ∨ c' = c) as [Hold | ->].
  { destruct (_ && _); [|by left].
    apply elem_of_app in Hc' as [?| ->%list_elem_of_singleton]; [by left|by right]. }
  - destruct (Hfresh s c' Hold) as [Hid Hkey]. split; [lia|].
    intros n Hk. specialize (Hkey n Hk). lia.
  - unfold c, connection_of, lookup_key, wrapper_of. simpl. split; [lia|].
    intros n Hk. destruct (opt_dispatch_uid options) as [uid|]; [|injection Hk as <-; lia].
    destruct (negb _) in Hk; [done|]. injection Hk as <-. lia.
Qed.

Lemma idle_fresh : ids_fresh idle.
Proof. intros s c Hc. by apply elem_of_nil in Hc. Qed.

Lemma saved_fires : fires "post_save" (Some article) saved_named.
Proof.
  split.
  - split; [by apply not_elem_of_dom|]. split; [by apply not_elem_of_dom|].
    split; [by apply not_elem_of_dom|done].
  - split; [by intros S [= <-]|]. split; [|reflexivity].
    right. by exists article, (VInt 7), [("title", VStr "Hello")].
Qed.

Lemma django_q_deliverable : deliverable "post_save" (Some django_q_task) ∅.
Proof.
  split; [by apply not_elem_of_dom|]. split; [by apply not_elem_of_dom|].
  split; [by apply not_elem_of_dom|done].
Qed.

(** ** Dispatching to the wrappers *)

Lemma enqueue_all_nil (q : Process) : enqueue_all [] q = q.
Proof. destruct q. unfold enqueue_all. simpl. by rewrite app_nil_r. Qed.

Lemma enqueue_all_cons (t : Task) (ts : list Task) (q : Process) :
  enqueue_all (t :: ts) q = enqueue_all ts (enqueue t q).
Proof. unfold enqueue_all, enqueue. simpl. by rewrite <- app_assoc. Qed.

Lemma enqueue_all_app (ts ts' : list Task) (q : Process) :
  enqueue_all (ts ++ ts') q = enqueue_all ts' (enqueue_all ts q).
Proof. unfold enqueue_all. simpl. by rewrite app_assoc. Qed.

(** A call that binds and reaches the receivers is the loop over those
    that hear the sender. *)
Lemma send_deliverable s sender named q :
  deliverable s sender named →
  send s sender named q = for_each (call_receiver s sender named) (heard q s sender) q.
Proof.
  intros (Hself & Hsender & _ & Hcache). unfold send, heard.
  rewrite bool_decide_eq_false_2 by tauto.
  destruct (receivers_of q s) as [|c cs]; [done|].
  destruct (use_caching s); [|done].
  by rewrite bool_decide_eq_false_2 by auto.
Qed.

(** The wrapper on an event it takes: whatever path it closes over, it
    returns and queues the task [submitted]. *)
Lemma wrapper_submits sender named :
  acceptable sender named →
  ∃ d, _serialize_signal_kwargs (event_kwargs sender named) = Ok d ∧
       ∀ path q, signal_handler path (event_kwargs sender named) q
                 = (Ok tt, enqueue (submitted path sender named d) q).
Proof.
  intros (Hguard & Hinstance & Hiter).
  set (kwargs := event_kwargs sender named).
  assert (kwargs_get kwargs "sender" = sender_value sender) as Hs.
  { unfold kwargs_get, kwargs, event_kwargs. rewrite lookup_insert_ne by done.
    by rewrite lookup_insert_eq. }
  assert (kwargs !! "instance" = named !! "instance") as Hi.
  { unfold kwargs, event_kwargs. by rewrite !lookup_insert_ne. }
  assert (update_fields_iterable kwargs = true) as Hiter'.
  { unfold update_fields_iterable, kwargs, event_kwargs in *.
    by rewrite !lookup_insert_ne. }
  pose proof (serialize_spec kwargs) as Hspec. rewrite Hiter' in Hspec.
  destruct Hspec as (d & Hd & _).
  exists d. split; [done|]. intros path q.
  rewrite signal_handler_unfold, Hs, Hd.
  assert (is_django_q (sender_value sender) = Ok false ∧
          _get_model_label (sender_value sender) = Ok (label_of <$> sender)) as [-> ->].
  { destruct sender as [S|]; [|done].
    specialize (Hguard S eq_refl). apply String.eqb_neq in Hguard.
    unfold is_django_q, _get_model_label, sender_value, Py.truthy, meta.
    unfold mbind, outcome_bind. by rewrite Hguard. }
  unfold kwargs_get, submitted. rewrite Hi.
  destruct Hinstance as [Hnone | (cls & pk & fields & Hinst)].
  - unfold kwargs_get in Hnone.
    destruct (named !! "instance") as [v|]; simpl in Hnone; [subst v|]; done.
  - by rewrite Hinst.
Qed.

(** A firing queues one task for each receiver that hears the sender, in
    connection order, and returns. *)
Lemma send_fires s sender named :
  fires s sender named →
  ∃ d, _serialize_signal_kwargs (event_kwargs sender named) = Ok d ∧
       ∀ q, send s sender named q
            = (Ok tt,
               enqueue_all ((λ c, submitted (wrapper_task_path (conn_receiver c))
                                    sender named d) <$> heard q s sender) q).
Proof.
  intros [Hdeliverable Hacceptable].
  destruct (wrapper_submits sender named Hacceptable) as (d & Hd & Hcall).
  exists d. split; [done|]. intros q. rewrite send_deliverable by done.
  destruct Hdeliverable as (_ & _ & Hsignal & _).
  generalize (heard q s sender). intros cs. revert q.
  induction cs as [|c cs IH]; intros q.
  - by rewrite enqueue_all_nil.
  - rewrite for_each_cons.
    assert (call_receiver s sender named c q
            = (Ok tt, enqueue (submitted (wrapper_task_path (conn_receiver c))
                                 sender named d) q)) as ->.
    { unfold call_receiver. rewrite bool_decide_eq_false_2 by done. apply Hcall. }
    rewrite IH. by rewrite fmap_cons, enqueue_all_cons.
Qed.

Lemma one_task_each_submitted sender named d (cs : list Connection) :
  one_task_each cs
    ((λ c, submitted (wrapper_task_path (conn_receiver c)) sender named d) <$> cs).
Proof. induction cs as [|c cs IH]; by constructor. Qed.

(** A firing in a process whose receivers are those of [p] followed by
    [new], all of which hear the sender: first the tasks of the receivers
    of [p], then those of [new]. *)
Lemma send_appended s sender named p q new :
  fires s sender named →
  receivers_of q s = (receivers_of p s ++ new)%list →
  Forall (λ c, hears (conn_sender c) sender = true) new →
  ∃ d earlier,
    _serialize_signal_kwargs (event_kwargs sender named) = Ok d ∧
    one_task_each (heard p s sender) earlier ∧
    send s sender named q
    = (Ok tt,
       enqueue_all ((λ c, submitted (wrapper_task_path (conn_receiver c))
                            sender named d) <$> new)
         (enqueue_all earlier q)).
Proof.
  intros Hfires Hq Hnew.
  destruct (send_fires s sender named Hfires) as (d & Hd & Hsend).
  exists d, ((λ c, submitted (wrapper_task_path (conn_receiver c)) sender named d)
               <$> heard p s sender).
  split; [done|]. split; [apply one_task_each_submitted|].
  rewrite Hsend. unfold heard. rewrite Hq, filter_app, (filter_all _ new Hnew).
  by rewrite fmap_app, enqueue_all_app.
Qed.

(** ** One handler, two signals *)




(** ** The scenarios of the test suite *)

(** The task function is created in the handler's module. *)
Example task_function_created_in_module :
  bound_at (scenario (One "post_save") report_handler []).2 "blog.signals" "handler_task"
  = Some (TaskFunction report_handler).
Proof. reflexivity. Qed.

(** Saving a new article: one task is queued, and the handler runs with
    the sender, the stored instance, [created=True] and
    [update_fields=None]. *)
Example signal_triggers_handler :
  let run := scenario (One "post_save") report_handler
               [("post_save", delete "sender" (delete "signal" created_kwargs))] in
  run.1 = Ok tt ∧
  run_queue blog run.2
  = [Ok (VTuple [VModelClass article;
                 VInstance article (VInt 7) [("title", VStr "Edited")];
                 VBool true; VNone; VNone])].
Proof. split; vm_compute; reflexivity. Qed.

(** [update_fields] comes back as a frozenset. *)
Example update_fields_serialization :
  run_queue blog
    (scenario (One "post_save") report_handler
       [("post_save", <["instance" := VInstance article (VInt 7) []]>
                        (<["update_fields" := VFrozenset [VStr "title"]]> ∅))]).2
  = [Ok (VTuple [VModelClass article;
                 VInstance article (VInt 7) [("title", VStr "Edited")];
                 VNone; VFrozenset [VStr "title"]; VNone])].
Proof. vm_compute. reflexivity. Qed.

(** The instance was deleted before the task ran. *)
Example instance_deleted_before_execution :
  async_task_func blog report_handler (Some "blog.article") (Some "blog.article")
    (VInt 8) ∅
  = Ok (VTuple [VModelClass article; VNone; VNone; VNone; VInt 8]).
Proof. vm_compute. reflexivity. Qed.

(** An event without an instance. *)
Example none_instance_handling :
  run_queue blog
    (scenario (One "post_save") report_handler
       [("post_save", <["instance" := VNone]> ∅)]).2
  = [Ok (VTuple [VModelClass article; VNone; VNone; VNone; VNone])].
Proof. vm_compute. reflexivity. Qed.

(** One handler for [post_save] and [post_delete]: a save and a delete
    queue one task each. *)
Example multiple_signals_same_handler :
  length (queue
    (scenario (Many ["post_save"; "post_delete"]) report_handler
       [("post_save", <["instance" := VInstance article (VInt 7) []]>
                        (<["created" := VBool true]> ∅));
        ("post_delete", <["instance" := VInstance article (VInt 7) []]> ∅)]).2) = 2.
Proof. vm_compute. reflexivity. Qed.

(** An [async def] handler is driven to its end by the task function. *)
Example coroutine_handler_is_driven :
  async_task_func blog async_report_handler (Some "blog.article") None VNone
    {["created" := VBool true]}
  = Ok (VTuple [VModelClass article; VNone; VBool true; VNone; VNone]).
Proof. vm_compute. reflexivity. Qed.

(** * Further properties *)

(** ** What serialisation raises, keeps and ignores *)

Lemma iter_raises_type_error (v : pyval) (e : exn) :
  Py.iter v = Raise e → e = TypeError.
Proof. destruct v; simpl; congruence. Qed.

(** X1.  [_serialize_signal_kwargs] raises in one case only, and then it is
    [TypeError]: the mapping has an [update_fields] entry that is neither
    [None] nor iterable. *)
Theorem serialize_raises_iff (kwargs : kwargs_t) (e : exn) :
  _serialize_signal_kwargs kwargs = Raise e ↔
  e = TypeError ∧
  ∃ v, kwargs !! "update_fields" = Some v ∧ v ≠ VNone ∧ Py.iter v = Raise TypeError.
Proof.
  pose proof (serialize_spec kwargs) as Hspec.
  unfold update_fields_iterable in Hspec.
  destruct (kwargs !! "update_fields") as [v|] eqn:Hv.
  - destruct (bool_decide (v = VNone)) eqn:Hnone; simpl in Hspec.
    + apply bool_decide_eq_true in Hnone. destruct Hspec as (d & -> & _).
      split; [done|]. intros (_ & v' & [= <-] & Hne & _). done.
    + apply bool_decide_eq_false in Hnone.
      destruct (Py.iter v) as [xs|e'] eqn:Hiter; simpl in Hspec.
      * destruct Hspec as (d & -> & _). split; [done|].
        intros (_ & v' & [= <-] & _ & Hraise). congruence.
      * rewrite Hspec. pose proof (iter_raises_type_error v e' Hiter) as ->.
        split; [intros [= <-]|intros [-> _]; done].
        split; [done|]. by exists v.
  - destruct Hspec as (d & -> & _). split; [done|].
    intros (_ & v' & Hv' & _). done.
Qed.

Lemma kept_idempotent (k : string) (v w : pyval) :
  kept k v = Some w → kept k w = Some w.
Proof.
  unfold kept. destruct (bool_decide (k ∈ _)); [done|].
  destruct (bool_decide (k = "update_fields")); simpl.
  - destruct (bool_decide (v = VNone)) eqn:Hv; simpl.
    + destruct (Py.isinstance_serializable v) eqn:Hadm; [|done].
      intros [= <-]. by rewrite Hv, Hadm.
    + destruct (Py.iter v) as [xs|]; [|done]. by intros [= <-].
  - destruct (Py.isinstance_serializable v) eqn:Hadm; [|done].
    intros [= <-]. by rewrite Hadm.
Qed.

Lemma kept_admitted (k : string) (v w : pyval) :
  kept k v = Some w →
  Py.isinstance_serializable w = true ∧
  (k ∉ structural_keys) ∧
  (k = "update_fields" → w = VNone ∨ ∃ xs, w = VList xs).
Proof.
  unfold kept, structural_keys. case_bool_decide as Hk; [done|].
  destruct (bool_decide (k = "update_fields")) eqn:Huf; simpl.
  - destruct (bool_decide (v = VNone)) eqn:Hv; simpl.
    + apply bool_decide_eq_true in Hv. subst v. simpl. intros [= <-].
      repeat split; eauto.
    + destruct (Py.iter v) as [xs|]; [|done]. intros [= <-].
      repeat split; eauto.
  - apply bool_decide_eq_false in Huf.
    destruct (Py.isinstance_serializable v) eqn:Hadm; [|done].
    intros [= <-]. repeat split; done.
Qed.

(** X2.  Serialising what [_serialize_signal_kwargs] returned gives it back
    unchanged: the serialised form is a fixed point. *)
Theorem serialize_idempotent (kwargs d : kwargs_t) :
  _serialize_signal_kwargs kwargs = Ok d → _serialize_signal_kwargs d = Ok d.
Proof.
  intros Hd. pose proof (serialize_spec kwargs) as Hspec.
  destruct (update_fields_iterable kwargs); [|congruence].
  destruct Hspec as (d0 & Hd0 & Hlookup). assert (d0 = d) as -> by congruence.
  assert (∀ k, d !! k ≫= kept k = d !! k) as Hfixed.
  { intros k. rewrite Hlookup. destruct (kwargs !! k) as [v|]; [simpl|done].
    destruct (kept k v) as [w|] eqn:Hw; [simpl|done]. by eapply kept_idempotent. }
  assert (update_fields_iterable d = true) as Hiter.
  { unfold update_fields_iterable. rewrite Hlookup.
    destruct (kwargs !! "update_fields") as [v|]; [simpl|done].
    destruct (kept "update_fields" v) as [w|] eqn:Hw; [|done].
    destruct (kept_admitted _ _ _ Hw) as (_ & _ & [-> | [xs ->]]); done. }
  pose proof (serialize_spec d) as Hspec. rewrite Hiter in Hspec.
  destruct Hspec as (d' & -> & Hlookup'). f_equal.
  apply map_eq. intros k. by rewrite Hlookup', Hfixed.
Qed.

Lemma example_serialized : _serialize_signal_kwargs example_kwargs = Ok example_metadata.
Proof. vm_compute. reflexivity. Qed.

Lemma serialize_idempotent_witness :
  _serialize_signal_kwargs example_kwargs = Ok example_metadata ∧
  _serialize_signal_kwargs example_metadata = Ok example_metadata.
Proof.
  split; [exact example_serialized|].
  apply (serialize_idempotent example_kwargs example_metadata example_serialized).
Defined.

(** X3.  Every value of the serialised metadata is of a kind [isinstance]
    admits (text, integer, float, boolean, list, dict, tuple or [None]), no
    key of it is structural, and its [update_fields] entry, if any, is
    [None] or a list. *)
Theorem serialized_values_admitted (kwargs d : kwargs_t) (k : string) (w : pyval) :
  _serialize_signal_kwargs kwargs = Ok d →
  d !! k = Some w →
  Py.isinstance_serializable w = true ∧
  (k ∉ structural_keys) ∧
  (k = "update_fields" → w = VNone ∨ ∃ xs, w = VList xs).
Proof.
  intros Hd Hw. pose proof (serialize_spec kwargs) as Hspec.
  destruct (update_fields_iterable kwargs); [|congruence].
  destruct Hspec as (d0 & Hd0 & Hlookup). assert (d0 = d) as -> by congruence.
  rewrite Hlookup in Hw. destruct (kwargs !! k) as [v|]; [simpl in Hw|done].
  by eapply kept_admitted.
Qed.

Lemma serialized_values_admitted_witness :
  _serialize_signal_kwargs example_kwargs = Ok example_metadata ∧
  example_metadata !! "update_fields" = Some (VList [VStr "title"; VStr "body"]) ∧
  Py.isinstance_serializable (VList [VStr "title"; VStr "body"]) = true ∧
  ("update_fields" ∉ structural_keys) ∧
  ("update_fields" = "update_fields" →
   VList [VStr "title"; VStr "body"] = VNone ∨
   ∃ xs, VList [VStr "title"; VStr "body"] = VList xs).
Proof.
  split; [exact example_serialized|]. split; [reflexivity|].
  apply (serialized_values_admitted example_kwargs example_metadata "update_fields"
           (VList [VStr "title"; VStr "body"]) example_serialized).
  reflexivity.
Defined.

Lemma kept_skipped (k : string) (v : pyval) : skipped k v → kept k v = None.
Proof.
  unfold skipped, structural_keys, kept. intros [Hk | [Hk Hv]].
  - by rewrite bool_decide_eq_true_2.
  - destruct (bool_decide (k ∈ _)); [done|].
    rewrite (bool_decide_eq_false_2 (k = "update_fields")) by done. simpl.
    by rewrite Hv.
Qed.

Lemma skipped_not_update_fields (k : string) (v : pyval) :
  skipped k v → k ≠ "update_fields".
Proof.
  unfold skipped, structural_keys. intros [Hk | [Hk _]]; [|done].
  intros ->. revert Hk. by apply (bool_decide_unpack _).
Qed.

(** X4.  An entry the loop passes over has the effect of no entry: with or
    without it, under a structural key or with a value of an unsupported
    kind, the call returns the same dict or raises the same exception. *)
Theorem serialize_ignores_skipped (kwargs : kwargs_t) (k : string) (v : pyval) :
  skipped k v →
  _serialize_signal_kwargs (<[k := v]> kwargs) = _serialize_signal_kwargs (delete k kwargs).
Proof.
  intros Hskip. pose proof (skipped_not_update_fields k v Hskip) as Hk.
  pose proof (serialize_spec (<[k := v]> kwargs)) as H1.
  pose proof (serialize_spec (delete k kwargs)) as H2.
  unfold update_fields_iterable in H1, H2.
  rewrite lookup_insert_ne in H1 by done. rewrite lookup_delete_ne in H2 by done.
  destruct (match kwargs !! "update_fields" with
            | Some v0 => bool_decide (v0 = VNone) || returns (Py.iter v0)
            | None => true
            end); [|congruence].
  destruct H1 as (d1 & -> & L1). destruct H2 as (d2 & -> & L2). f_equal.
  apply map_eq. intros k'. rewrite L1, L2.
  destruct (decide (k' = k)) as [->|Hne].
  - rewrite lookup_insert_eq, lookup_delete_eq. simpl. by apply kept_skipped.
  - by rewrite lookup_insert_ne, lookup_delete_ne.
Qed.

Lemma serialize_ignores_skipped_witness :
  skipped "origin" (VObject "Collector") ∧
  _serialize_signal_kwargs (<["origin" := VObject "Collector"]> created_kwargs)
  = _serialize_signal_kwargs (delete "origin" created_kwargs).
Proof.
  assert (skipped "origin" (VObject "Collector")) as Hskip by (right; by split).
  split; [exact Hskip|].
  apply (serialize_ignores_skipped created_kwargs "origin" (VObject "Collector") Hskip).
Defined.

(** ** Labels *)

Lemma rsplit_dot_snd_no_dot (s a b : string) :
  Py.rsplit_dot s = Some (a, b) → has_dot b = false.
Proof.
  revert a b. induction s as [|c s IH]; intros a b; [done|]. simpl.
  destruct (Py.rsplit_dot s) as [[a' b']|] eqn:Hs.
  - intros [= <- <-]. by eapply IH.
  - destruct (Ascii.eqb c "."%char); [|done]. intros [= <- <-].
    destruct (has_dot s) eqn:Hdot; [|done].
    exfalso. clear IH. induction s as [|c' s IH]; [done|]. simpl in *.
    destruct (Py.rsplit_dot s) as [[? ?]|]; [done|].
    destruct (Ascii.eqb c' "."%char); [done|]. simpl in Hdot. by apply IH.
Qed.

Lemma rsplit_dot_with_dot (s : string) :
  has_dot s = true → ∃ names, Py.rsplit_dot s = Some names.
Proof.
  induction s as [|c s IH]; [done|]. simpl.
  destruct (Py.rsplit_dot s) as [[a b]|]; [by eauto|].
  destruct (Ascii.eqb c "."%char); [by eauto|]. simpl. intros Hs.
  by destruct (IH Hs).
Qed.

(** X5.  The label of a model and of any of its instances is
    ["<app_label>.<model_name>"]; the task function always takes such a
    label as present and can always unpack it; and what it unpacks is the
    model's own pair of names exactly when the model name has no dot (the
    app label may have dots). *)
Theorem label_round_trip (cls : ModelClass) :
  _get_model_label (VModelClass cls) = Ok (Some (label_of cls)) ∧
  (∀ pk fields, _get_model_label (VInstance cls pk fields) = Ok (Some (label_of cls))) ∧
  label_present (Some (label_of cls)) = Some (label_of cls) ∧
  (∃ names, unpack_label (label_of cls) = Ok names) ∧
  (unpack_label (label_of cls) = Ok (app_label cls, model_name cls) ↔
   has_dot (model_name cls) = false).
Proof.
  split; [done|]. split; [done|]. split; [apply label_present_label|].
  unfold unpack_label. split.
  - destruct (rsplit_dot_with_dot (label_of cls)) as [names ->]; [|by eauto].
    unfold label_of. rewrite !has_dot_app. simpl. by rewrite orb_true_r.
  - split.
    + destruct (Py.rsplit_dot (label_of cls)) as [[a b]|] eqn:Hsplit; [|done].
      intros [= -> ->]. by eapply rsplit_dot_snd_no_dot.
    + intros Hname. unfold label_of. by rewrite rsplit_dot_label.
Qed.

(** ** What the task function raises, and what it hands to the handler *)

Lemma reconstruct_sender_raises dj label e :
  reconstruct_sender dj label = Raise e → e = ValueError ∨ e = LookupError.
Proof.
  unfold reconstruct_sender, unpack_label, apps_get_model.
  destruct (label_present label) as [l|]; [|done].
  destruct (Py.rsplit_dot l) as [[app name]|]; simpl; [|intros [= <-]; by left].
  destruct (get_model dj app name); simpl; [done|]. intros [= <-]. by right.
Qed.

Lemma frozenset_raises_type_error (v : pyval) (e : exn) :
  Py.frozenset v = Raise e → e = TypeError.
Proof.
  unfold Py.frozenset. destruct (Py.iter v) as [xs|e'] eqn:Hiter; simpl.
  - destruct (forallb Py.hashable xs); [done|]. by intros [= <-].
  - intros [= <-]. by eapply iter_raises_type_error.
Qed.

Lemma reconstruct_update_fields_raises (kwargs : kwargs_t) (e : exn) :
  reconstruct_update_fields kwargs = Raise e →
  e = TypeError ∧ update_fields_restorable kwargs = false.
Proof.
  unfold reconstruct_update_fields, update_fields_restorable.
  destruct (kwargs !! "update_fields") as [v|]; [|done].
  destruct (bool_decide (v = VNone)); [done|]. simpl.
  destruct (Py.frozenset v) as [fs|e'] eqn:Hfs; [done|]. simpl.
  intros [= <-]. split; [by eapply frozenset_raises_type_error|done].
Qed.

Lemma reconstruct_update_fields_frame (kwargs kwargs' : kwargs_t) :
  reconstruct_update_fields kwargs = Ok kwargs' →
  (∀ k, k ≠ "update_fields" → kwargs' !! k = kwargs !! k) ∧
  (kwargs' = kwargs ∨
   ∃ v fs, kwargs !! "update_fields" = Some v ∧ v ≠ VNone ∧
           Py.frozenset v = Ok fs ∧ kwargs' !! "update_fields" = Some fs).
Proof.
  unfold reconstruct_update_fields.
  destruct (kwargs !! "update_fields") as [v|] eqn:Hv; [|intros [= <-]; by eauto].
  case_bool_decide as Hnone; [intros [= <-]; by eauto|].
  destruct (Py.frozenset v) as [fs|] eqn:Hfs; [|done]. simpl. intros [= <-]. split.
  - intros k Hk. by rewrite lookup_insert_ne.
  - right. exists v, fs. by rewrite lookup_insert_eq.
Qed.

(** The second block in all its cases. *)
Lemma reconstruct_instance_cases dj label instance_id signal_kwargs :
  match reconstruct_instance dj label instance_id signal_kwargs with
  | Ok (instance, kwargs1) =>
      (label_present label = None ∧ instance = VNone ∧ kwargs1 = signal_kwargs) ∨
      (∃ cls, names_model dj label cls ∧
              ((objects_get dj cls instance_id = Ok instance ∧ kwargs1 = signal_kwargs) ∨
               (objects_get dj cls instance_id = Raise DoesNotExist ∧ instance = VNone ∧
                kwargs1 = <["_instance_pk" := instance_id]> signal_kwargs)))
  | Raise e =>
      e ≠ DoesNotExist ∧
      ((e = ValueError ∧ ∃ l, label_present label = Some l ∧ Py.rsplit_dot l = None) ∨
       (e = LookupError ∧ names_missing_model dj label) ∨
       (∃ cls, names_model dj label cls ∧ objects_get dj cls instance_id = Raise e))
  end.
Proof.
  unfold reconstruct_instance, unpack_label, apps_get_model.
  destruct (label_present label) as [l|] eqn:Hl; [|by left].
  destruct (Py.rsplit_dot l) as [[app name]|] eqn:Hsplit; simpl.
  2: { split; [done|]. left. split; [done|]. by exists l. }
  destruct (get_model dj app name) as [cls|] eqn:Hget; simpl.
  2: { split; [done|]. right. left. split; [done|]. by exists l, app, name. }
  assert (names_model dj label cls) as Hnamed by (by exists l, app, name).
  destruct (objects_get dj cls instance_id) as [v|e] eqn:Hrow.
  - right. exists cls. split; [done|]. by left.
  - destruct e; try (split; [done|]; right; right; by exists cls).
    right. exists cls. split; [done|]. by right.
Qed.

(** The task function calls the handler only as the three blocks say. *)
Lemma invokes_inv dj sender_label instance_label instance_id signal_kwargs
    sender instance kwargs :
  invokes dj sender_label instance_label instance_id signal_kwargs sender instance kwargs →
  ∃ kwargs1,
    reconstruct_sender dj sender_label = Ok sender ∧
    reconstruct_instance dj instance_label instance_id signal_kwargs = Ok (instance, kwargs1) ∧
    reconstruct_update_fields kwargs1 = Ok kwargs.
Proof.
  intros Hinv.
  assert (∀ k, async_task_func dj (probe k) sender_label instance_label instance_id
                 signal_kwargs
               = Ok (VTuple [sender; instance; VList (option_list (kwargs !! k))]))
    as Hprobe by (intros k; apply (Hinv (probe k))).
  unfold async_task_func in Hprobe.
  destruct (reconstruct_sender dj sender_label) as [s0|]; simpl in Hprobe;
    [|by specialize (Hprobe "")].
  destruct (reconstruct_instance dj instance_label instance_id signal_kwargs)
    as [[i0 kwargs1]|]; simpl in Hprobe; [|by specialize (Hprobe "")].
  destruct (reconstruct_update_fields kwargs1) as [kwargs2|] eqn:Hu; simpl in Hprobe;
    [|by specialize (Hprobe "")].
  exists kwargs1. rewrite Hu.
  pose proof (Hprobe "") as [= -> -> _].
  split; [done|]. split; [done|].
  assert (kwargs2 = kwargs) as ->; [|done].
  apply (map_eq (M := gmap string)). intros k.
  specialize (Hprobe k). injection Hprobe as Hk.
  destruct (kwargs2 !! k), (kwargs !! k); simpl in Hk; congruence.
Qed.

(** X6.  Whatever makes the task function raise before the handler runs, it
    is never [DoesNotExist]: the exception is the [ValueError] of a label
    without a dot, the [LookupError] of a model that is not installed, the
    [TypeError] of an [update_fields] entry that cannot be made a frozenset,
    or what the lookup of the record raised. *)
Theorem reconstruction_failures dj sender_label instance_label instance_id
    signal_kwargs e :
  fails_with dj sender_label instance_label instance_id signal_kwargs e →
  e ≠ DoesNotExist ∧
  (e = ValueError ∨ e = LookupError ∨ e = TypeError ∨
   ∃ cls, names_model dj instance_label cls ∧ objects_get dj cls instance_id = Raise e).
Proof.
  intros Hfails. specialize (Hfails noop_handler). unfold async_task_func in Hfails.
  destruct (reconstruct_sender dj sender_label) as [s|e0] eqn:Hs; simpl in Hfails.
  2: { injection Hfails as ->.
       destruct (reconstruct_sender_raises _ _ _ Hs) as [-> | ->]; split; auto. }
  pose proof (reconstruct_instance_cases dj instance_label instance_id signal_kwargs) as Hi.
  destruct (reconstruct_instance dj instance_label instance_id signal_kwargs)
    as [[i kwargs1]|e1]; simpl in Hfails.
  2: { injection Hfails as ->. destruct Hi as (Hne & [[-> _] | [[-> _] | Hrow]]); auto. }
  destruct (reconstruct_update_fields kwargs1) as [kwargs2|e2] eqn:Hu; simpl in Hfails;
    [done|].
  injection Hfails as ->. destruct (reconstruct_update_fields_raises _ _ Hu) as [-> _].
  split; auto.
Qed.

Lemma reconstruction_failures_witness :
  fails_with blog (Some "shop.order") (Some "blog.article") (VInt 8) ∅ LookupError ∧
  LookupError ≠ DoesNotExist ∧
  (LookupError = ValueError ∨ LookupError = LookupError ∨ LookupError = TypeError ∨
   ∃ cls, names_model blog (Some "blog.article") cls ∧
          objects_get blog cls (VInt 8) = Raise LookupError).
Proof.
  assert (fails_with blog (Some "shop.order") (Some "blog.article") (VInt 8) ∅ LookupError)
    as Hfails by (intros func; reflexivity).
  split; [exact Hfails|].
  apply (reconstruction_failures blog (Some "shop.order") (Some "blog.article") (VInt 8) ∅
           LookupError Hfails).
Defined.

(** X7.  When the task function calls the handler, the sender is [None] or
    a model class; every keyword argument other than [update_fields] and
    [_instance_pk] is the metadata's own; [_instance_pk] is the metadata's
    own unless the record was missing, in which case the instance is [None]
    and the key holds the submitted primary key; and [update_fields] is the
    metadata's own or the frozenset made of it. *)
Theorem handler_sees_metadata dj sender_label instance_label instance_id
    signal_kwargs sender instance kwargs :
  invokes dj sender_label instance_label instance_id signal_kwargs sender instance kwargs →
  (sender = VNone ∨ ∃ cls, sender = VModelClass cls) ∧
  (∀ k, k ≠ "update_fields" → k ≠ "_instance_pk" → kwargs !! k = signal_kwargs !! k) ∧
  (kwargs !! "_instance_pk" = signal_kwargs !! "_instance_pk" ∨
   (instance = VNone ∧ kwargs !! "_instance_pk" = Some instance_id)) ∧
  (kwargs !! "update_fields" = signal_kwargs !! "update_fields" ∨
   ∃ v fs, signal_kwargs !! "update_fields" = Some v ∧ v ≠ VNone ∧
           Py.frozenset v = Ok fs ∧ kwargs !! "update_fields" = Some fs).
Proof.
  intros (kwargs1 & Hs & Hi & Hu)%invokes_inv.
  destruct (reconstruct_update_fields_frame _ _ Hu) as [Hframe Hfields].
  pose proof (reconstruct_instance_cases dj instance_label instance_id signal_kwargs) as Hc.
  rewrite Hi in Hc.
  assert (kwargs1 !! "update_fields" = signal_kwargs !! "update_fields") as Huf.
  { by eapply reconstruct_instance_lookup. }
  split; [|split; [|split]].
  - unfold reconstruct_sender in Hs. destruct (label_present sender_label) as [l|].
    + destruct (unpack_label l) as [[app name]|]; [simpl in Hs|done].
      destruct (apps_get_model dj app name) as [cls|]; [simpl in Hs|done].
      injection Hs as <-. by eauto.
    + injection Hs as <-. by left.
  - intros k Hk1 Hk2. rewrite Hframe by done. by eapply reconstruct_instance_lookup.
  - rewrite Hframe by done.
    destruct Hc as [(_ & _ & ->) | (cls & _ & [[_ ->] | (_ & -> & ->)])];
      [by left | by left |].
    right. by rewrite lookup_insert_eq.
  - destruct Hfields as [-> | (v & fs & Hv & Hne & Hfs & Hnew)]; [by left|].
    right. exists v, fs. by rewrite <- Huf.
Qed.

Lemma article_8_reported :
  invokes blog (Some "blog.article") (Some "blog.article") (VInt 8)
    {["created" := VBool true]} (VModelClass article) VNone
    (<["_instance_pk" := VInt 8]> {["created" := VBool true]}).
Proof. intros func. reflexivity. Qed.

Lemma handler_sees_metadata_witness :
  invokes blog (Some "blog.article") (Some "blog.article") (VInt 8)
    {["created" := VBool true]} (VModelClass article) VNone
    (<["_instance_pk" := VInt 8]> {["created" := VBool true]}) ∧
  (VModelClass article = VNone ∨ ∃ cls, VModelClass article = VModelClass cls) ∧
  (∀ k, k ≠ "update_fields" → k ≠ "_instance_pk" →
        (<["_instance_pk" := VInt 8]> {["created" := VBool true]} : kwargs_t) !! k
        = ({["created" := VBool true]} : kwargs_t) !! k) ∧
  ((<["_instance_pk" := VInt 8]> {["created" := VBool true]} : kwargs_t) !! "_instance_pk"
   = ({["created" := VBool true]} : kwargs_t) !! "_instance_pk" ∨
   (VNone = VNone ∧
    (<["_instance_pk" := VInt 8]> {["created" := VBool true]} : kwargs_t) !! "_instance_pk"
    = Some (VInt 8))) ∧
  ((<["_instance_pk" := VInt 8]> {["created" := VBool true]} : kwargs_t) !! "update_fields"
   = ({["created" := VBool true]} : kwargs_t) !! "update_fields" ∨
   ∃ v fs, ({["created" := VBool true]} : kwargs_t) !! "update_fields" = Some v ∧
           v ≠ VNone ∧ Py.frozenset v = Ok fs ∧
           (<["_instance_pk" := VInt 8]> {["created" := VBool true]} : kwargs_t)
             !! "update_fields" = Some fs).
Proof.
  split; [exact article_8_reported|].
  apply (handler_sees_metadata blog (Some "blog.article") (Some "blog.article") (VInt 8)
           {["created" := VBool true]} (VModelClass article) VNone
           (<["_instance_pk" := VInt 8]> {["created" := VBool true]}) article_8_reported).
Defined.

Lemma reconstruct_instance_settled dj label instance_id signal_kwargs :
  instance_settled dj label instance_id →
  ∃ instance kwargs1,
    reconstruct_instance dj label instance_id signal_kwargs = Ok (instance, kwargs1) ∧
    kwargs1 !! "update_fields" = signal_kwargs !! "update_fields".
Proof.
  intros [Habsent | (cls & Hnamed & [Hfound | Hmissing])].
  - exists VNone, signal_kwargs. unfold reconstruct_instance. by rewrite Habsent.
  - destruct (objects_get dj cls instance_id) as [v|] eqn:Hrow; [|done].
    exists v, signal_kwargs. split; [|done]. by eapply reconstruct_instance_found.
  - exists VNone, (<["_instance_pk" := instance_id]> signal_kwargs). split.
    + apply reconstruct_instance_missing_record. by exists cls.
    + by rewrite lookup_insert_ne.
Qed.

(** X8.  A failure of the record lookup other than [DoesNotExist] is not
    caught: once the sender is reconstructed, whatever
    [model_class.objects.get] raises leaves the task function, and the
    handler is not called. *)
Theorem database_error_propagates dj sender_label instance_label instance_id
    signal_kwargs cls e :
  label_resolves dj sender_label →
  names_model dj instance_label cls →
  objects_get dj cls instance_id = Raise e →
  e ≠ DoesNotExist →
  fails_with dj sender_label instance_label instance_id signal_kwargs e.
Proof.
  intros [sender Hs]%reconstruct_sender_resolves Hnamed Hrow Hne.
  eapply task_func_instance_fails; [done|].
  destruct Hnamed as (l & app & name & Hl & Hsplit & Hget).
  unfold reconstruct_instance, unpack_label, apps_get_model.
  rewrite Hl, Hsplit. simpl. rewrite Hget. simpl. rewrite Hrow. by destruct e.
Qed.

Lemma article_label_offline : names_model offline (Some "blog.article") article.
Proof. exists "blog.article", "blog", "article". repeat split; reflexivity. Qed.

Lemma database_error_propagates_witness :
  label_resolves offline None ∧
  names_model offline (Some "blog.article") article ∧
  objects_get offline article (VInt 7) = Raise (OtherError "database is locked") ∧
  OtherError "database is locked" ≠ DoesNotExist ∧
  fails_with offline None (Some "blog.article") (VInt 7) ∅
    (OtherError "database is locked").
Proof.
  assert (label_resolves offline None) as Hsender by (by left).
  assert (OtherError "database is locked" ≠ DoesNotExist) as Hne by discriminate.
  split; [exact Hsender|]. split; [exact article_label_offline|].
  split; [reflexivity|]. split; [exact Hne|].
  apply (database_error_propagates offline None (Some "blog.article") (VInt 7) ∅ article
           (OtherError "database is locked") Hsender article_label_offline eq_refl Hne).
Defined.

(** X9.  A label that is present but has no dot cannot be unpacked into two
    names: the task function raises [ValueError] and calls no handler, when
    the sender label is such a label, and when the sender is reconstructed
    and the instance label is such a label. *)
Theorem malformed_label_raises dj sender_label instance_label instance_id
    signal_kwargs l :
  (label_present sender_label = Some l ∧ has_dot l = false) ∨
  (label_resolves dj sender_label ∧
   label_present instance_label = Some l ∧ has_dot l = false) →
  fails_with dj sender_label instance_label instance_id signal_kwargs ValueError.
Proof.
  intros [[Hl Hdot] | (Hsender & Hl & Hdot)].
  - apply task_func_sender_fails. unfold reconstruct_sender, unpack_label.
    by rewrite Hl, (rsplit_dot_no_dot l Hdot).
  - destruct (reconstruct_sender_resolves dj sender_label Hsender) as [sender Hs].
    eapply task_func_instance_fails; [done|].
    unfold reconstruct_instance, unpack_label.
    by rewrite Hl, (rsplit_dot_no_dot l Hdot).
Qed.

Lemma malformed_label_raises_witness :
  ((label_present (Some "article") = Some "article" ∧ has_dot "article" = false) ∨
   (label_resolves blog (Some "article") ∧
    label_present None = Some "article" ∧ has_dot "article" = false)) ∧
  fails_with blog (Some "article") None VNone ∅ ValueError.
Proof.
  assert (label_present (Some "article") = Some "article" ∧ has_dot "article" = false)
    as Hbad by (split; reflexivity).
  split; [by left|].
  apply (malformed_label_raises blog (Some "article") None VNone ∅ "article"
           (or_introl Hbad)).
Defined.

(** X10.  Without an instance label (absent, or the empty string) the task
    function never looks at the primary key or at the database: two calls
    that differ only in the primary key and in what the database holds
    give the same result. *)
Theorem absent_instance_label_skips_database dj dj' func sender_label instance_label
    instance_id instance_id' signal_kwargs :
  label_present instance_label = None →
  (∀ app name, get_model dj app name = get_model dj' app name) →
  async_task_func dj func sender_label instance_label instance_id signal_kwargs
  = async_task_func dj' func sender_label instance_label instance_id' signal_kwargs.
Proof.
  intros Habsent Hsame. unfold async_task_func.
  assert (reconstruct_sender dj sender_label = reconstruct_sender dj' sender_label) as ->.
  { unfold reconstruct_sender, apps_get_model.
    destruct (label_present sender_label) as [l|]; [|done].
    destruct (unpack_label l) as [[app name]|]; [simpl|done]. by rewrite Hsame. }
  unfold reconstruct_instance. by rewrite Habsent.
Qed.

Lemma absent_instance_label_skips_database_witness :
  label_present (Some "") = None ∧
  (∀ app name, get_model blog app name = get_model offline app name) ∧
  async_task_func blog report_handler (Some "blog.article") (Some "") (VInt 7) ∅
  = async_task_func offline report_handler (Some "blog.article") (Some "") (VInt 8) ∅.
Proof.
  split; [reflexivity|]. split; [reflexivity|].
  apply (absent_instance_label_skips_database blog offline report_handler
           (Some "blog.article") (Some "") (VInt 7) (VInt 8) ∅ eq_refl).
  reflexivity.
Defined.

(** X11.  When sender and instance are reconstructed but the metadata's
    [update_fields] entry is neither [None] nor an iterable of hashable
    values, [frozenset] raises: the task function fails with [TypeError]
    and the handler is not called. *)
Theorem unrestorable_update_fields_raises dj sender_label instance_label instance_id
    signal_kwargs :
  label_resolves dj sender_label →
  instance_settled dj instance_label instance_id →
  update_fields_restorable signal_kwargs = false →
  fails_with dj sender_label instance_label instance_id signal_kwargs TypeError.
Proof.
  intros [sender Hs]%reconstruct_sender_resolves Hsettled Hfields.
  destruct (reconstruct_instance_settled dj instance_label instance_id signal_kwargs
              Hsettled) as (instance & kwargs1 & Hi & Huf).
  eapply task_func_update_fields_fails; [done..|].
  unfold update_fields_restorable in Hfields. unfold reconstruct_update_fields.
  rewrite Huf. destruct (signal_kwargs !! "update_fields") as [v|]; [|done].
  destruct (bool_decide (v = VNone)); [done|]. simpl in Hfields.
  destruct (Py.frozenset v) as [fs|e] eqn:Hfs; [done|]. simpl.
  by rewrite (frozenset_raises_type_error v e Hfs).
Qed.

Lemma unrestorable_update_fields_raises_witness :
  label_resolves blog None ∧
  instance_settled blog None VNone ∧
  update_fields_restorable {["update_fields" := VInt 5]} = false ∧
  fails_with blog None None VNone {["update_fields" := VInt 5]} TypeError.
Proof.
  assert (label_resolves blog None) as Hsender by (by left).
  assert (instance_settled blog None VNone) as Hinstance by (by left).
  split; [exact Hsender|]. split; [exact Hinstance|]. split; [reflexivity|].
  apply (unrestorable_update_fields_raises blog None None VNone
           {["update_fields" := VInt 5]} Hsender Hinstance).
  reflexivity.
Defined.

(** ** What the wrapper and a dispatch do to the process *)

(** X12.  A call of the wrapper changes nothing but the queue, to which it
    appends at most one task, under its own task path and only when it
    returns; when it raises, the process is as it was. *)
Theorem wrapper_effect (task_path : string) (kwargs : kwargs_t) (p : Process) :
  receivers (signal_handler task_path kwargs p).2 = receivers p ∧
  sys_modules (signal_handler task_path kwargs p).2 = sys_modules p ∧
  next_id (signal_handler task_path kwargs p).2 = next_id p ∧
  (queue (signal_handler task_path kwargs p).2 = queue p ∨
   ((signal_handler task_path kwargs p).1 = Ok tt ∧
    ∃ t, queue (signal_handler task_path kwargs p).2 = (queue p ++ [t])%list ∧
         task_path_of t = task_path)) ∧
  (∀ e, (signal_handler task_path kwargs p).1 = Raise e →
        (signal_handler task_path kwargs p).2 = p).
Proof.
  destruct (signal_handler_effect task_path kwargs p) as [Hsame | (t & Hrun & Hpath)].
  - rewrite Hsame. repeat split; auto.
  - rewrite Hrun. simpl. repeat split; [|done]. right. split; [done|]. by exists t.
Qed.

(** A value is used as a model although it has no [_meta]. *)
Lemma meta_raises (v : pyval) (e : exn) :
  meta v = Raise e → e = AttributeError ∧ meta v = Raise AttributeError.
Proof. destruct v; simpl; try done; by intros [= <-]. Qed.

Lemma is_django_q_raises (v : pyval) (e : exn) :
  is_django_q v = Raise e →
  e = AttributeError ∧ Py.truthy v = true ∧ meta v = Raise AttributeError.
Proof.
  unfold is_django_q. destruct (Py.truthy v); [|done].
  destruct (meta v) as [m|e'] eqn:Hm; [done|]. simpl. intros [= <-].
  by destruct (meta_raises v e' Hm) as [-> _].
Qed.

Lemma get_model_label_raises (v : pyval) (e : exn) :
  _get_model_label v = Raise e →
  e = AttributeError ∧ Py.truthy v = true ∧ meta v = Raise AttributeError.
Proof.
  unfold _get_model_label. destruct (Py.truthy v); [|done].
  destruct (meta v) as [m|e'] eqn:Hm; [done|]. simpl. intros [= <-].
  by destruct (meta_raises v e' Hm) as [-> _].
Qed.

Lemma pk_or_none_raises (v : pyval) (e : exn) :
  pk_or_none v = Raise e →
  e = AttributeError ∧ Py.truthy v = true ∧ meta v = Raise AttributeError.
Proof.
  unfold pk_or_none. destruct (Py.truthy v); [|done].
  destruct v; simpl; try done; by intros [= <-].
Qed.

(** The wrapper over any submit call, step by step. *)
Lemma signal_handler_via_unfold (submit : submit_t) (task_path : string)
    (kwargs : kwargs_t) (p : Process) :
  signal_handler_via submit task_path kwargs p =
    match is_django_q (kwargs_get kwargs "sender") with
    | Raise e => (Raise e, p)
    | Ok true => (Ok tt, p)
    | Ok false =>
        match _get_model_label (kwargs_get kwargs "sender") with
        | Raise e => (Raise e, p)
        | Ok sender_label =>
            match _get_model_label (kwargs_get kwargs "instance") with
            | Raise e => (Raise e, p)
            | Ok instance_label =>
                match _serialize_signal_kwargs kwargs with
                | Raise e => (Raise e, p)
                | Ok d =>
                    match pk_or_none (kwargs_get kwargs "instance") with
                    | Raise e => (Raise e, p)
                    | Ok pk => submit task_path sender_label instance_label pk d p
                    end
                end
            end
        end
    end.
Proof.
  unfold signal_handler_via, mbind, Exec_bind, lift, mret, Exec_ret.
  destruct (is_django_q _) as [[]|]; reflexivity.
Qed.

(** With the broker that takes every task, it is the wrapper of the
    model. *)
Lemma signal_handler_via_async_task (task_path : string) (kwargs : kwargs_t) :
  signal_handler_via async_task task_path kwargs = signal_handler task_path kwargs.
Proof. reflexivity. Qed.

(** X13.  Whatever the submit call does, an exception leaves the wrapper
    in three ways only: [AttributeError], when the sender or the instance
    is a truthy value without [_meta], that is neither a model class nor a
    model instance; [TypeError], when the [update_fields] entry is neither
    [None] nor iterable; and whatever the submit call itself raised, the
    call being the wrapper's last step, made with the serialised keyword
    arguments and not guarded. *)
Theorem wrapper_raises (submit : submit_t) (task_path : string) (kwargs : kwargs_t)
    (p : Process) (e : exn) :
  (signal_handler_via submit task_path kwargs p).1 = Raise e →
  (e = AttributeError ∧
   ∃ key, key ∈ ["sender"; "instance"] ∧
          Py.truthy (kwargs_get kwargs key) = true ∧
          meta (kwargs_get kwargs key) = Raise AttributeError) ∨
  (e = TypeError ∧ update_fields_iterable kwargs = false) ∨
  (∃ sender_label instance_label pk d,
     _serialize_signal_kwargs kwargs = Ok d ∧
     signal_handler_via submit task_path kwargs p
     = submit task_path sender_label instance_label pk d p ∧
     (submit task_path sender_label instance_label pk d p).1 = Raise e).
Proof.
  rewrite signal_handler_via_unfold.
  assert ("sender" ∈ ["sender"; "instance"]) as Hin1 by (left).
  assert ("instance" ∈ ["sender"; "instance"]) as Hin2 by (right; left).
  destruct (is_django_q (kwargs_get kwargs "sender")) as [[]|e0] eqn:Hguard; [done| |].
  2: { intros [= <-]. left. destruct (is_django_q_raises _ _ Hguard) as (-> & ? & ?).
       split; [done|]. by exists "sender". }
  destruct (_get_model_label (kwargs_get kwargs "sender")) as [sl|e1] eqn:Hsl.
  2: { intros [= <-]. left. destruct (get_model_label_raises _ _ Hsl) as (-> & ? & ?).
       split; [done|]. by exists "sender". }
  destruct (_get_model_label (kwargs_get kwargs "instance")) as [il|e2] eqn:Hil.
  2: { intros [= <-]. left. destruct (get_model_label_raises _ _ Hil) as (-> & ? & ?).
       split; [done|]. by exists "instance". }
  pose proof (serialize_spec kwargs) as Hspec.
  destruct (update_fields_iterable kwargs).
  - destruct Hspec as (d & -> & _).
    destruct (pk_or_none (kwargs_get kwargs "instance")) as [pk|e3] eqn:Hpk.
    + intros Hsubmit. right. right. by exists sl, il, pk, d.
    + intros [= <-]. left. destruct (pk_or_none_raises _ _ Hpk) as (-> & ? & ?).
      split; [done|]. by exists "instance".
  - rewrite Hspec. intros [= <-]. right. by left.
Qed.

Lemma wrapper_raises_witness :
  (signal_handler_via broker_down "blog.signals.handler_task"
     {["sender" := VModelClass article]} idle).1
    = Raise (OtherError "broker is down") ∧
  ((OtherError "broker is down" = AttributeError ∧
    ∃ key, key ∈ ["sender"; "instance"] ∧
           Py.truthy (kwargs_get {["sender" := VModelClass article]} key) = true ∧
           meta (kwargs_get {["sender" := VModelClass article]} key)
             = Raise AttributeError) ∨
   (OtherError "broker is down" = TypeError ∧
    update_fields_iterable {["sender" := VModelClass article]} = false) ∨
   (∃ sender_label instance_label pk d,
      _serialize_signal_kwargs {["sender" := VModelClass article]} = Ok d ∧
      signal_handler_via broker_down "blog.signals.handler_task"
        {["sender" := VModelClass article]} idle
      = broker_down "blog.signals.handler_task" sender_label instance_label pk d idle ∧
      (broker_down "blog.signals.handler_task" sender_label instance_label pk d idle).1
      = Raise (OtherError "broker is down"))).
Proof.
  split; [reflexivity|].
  apply (wrapper_raises broker_down "blog.signals.handler_task"
           {["sender" := VModelClass article]} idle (OtherError "broker is down")).
  reflexivity.
Defined.

Lemma call_receiver_effect s sender named c (p : Process) :
  (call_receiver s sender named c p).2 = p ∨
  ∃ t, call_receiver s sender named c p = (Ok tt, enqueue t p) ∧
       task_path_of t = wrapper_task_path (conn_receiver c).
Proof.
  unfold call_receiver. destruct (bool_decide _); [by left|].
  apply signal_handler_effect.
Qed.

Lemma dispatch_appends s sender named (cs : list Connection) (p : Process) :
  ∃ ts, receivers (for_each (call_receiver s sender named) cs p).2 = receivers p ∧
        sys_modules (for_each (call_receiver s sender named) cs p).2 = sys_modules p ∧
        next_id (for_each (call_receiver s sender named) cs p).2 = next_id p ∧
        queue (for_each (call_receiver s sender named) cs p).2 = (queue p ++ ts)%list ∧
        (length ts ≤ length cs)%nat ∧
        Forall (λ t, ∃ c, c ∈ cs ∧ task_path_of t = wrapper_task_path (conn_receiver c)) ts.
Proof.
  revert p. induction cs as [|c cs IH]; intros p.
  - exists []. simpl. by rewrite app_nil_r.
  - rewrite for_each_cons.
    destruct (call_receiver_effect s sender named c p) as [Hsame | (t & -> & Hpath)].
    + destruct (call_receiver s sender named c p) as [[[]|e] p']; simpl in Hsame; subst p'.
      * destruct (IH p) as (ts & Hr & Hm & Hn & Hq & Hlen & Hall).
        exists ts. repeat split; try done; [simpl; lia|].
        eapply Forall_impl; [exact Hall|]. intros t (c' & Hc' & Ht).
        exists c'. split; [by right|done].
      * exists []. simpl. rewrite app_nil_r. repeat split; try done. lia.
    + destruct (IH (enqueue t p)) as (ts & Hr & Hm & Hn & Hq & Hlen & Hall).
      exists (t :: ts). rewrite Hr, Hm, Hn, Hq. simpl.
      repeat split; try done; [by rewrite <- app_assoc | lia |].
      constructor; [exists c; split; [left|done]|].
      eapply Forall_impl; [exact Hall|]. intros t' (c' & Hc' & Ht').
      exists c'. split; [by right|done].
Qed.


(** ** What a decoration connects *)



(** X16.  Decorating a handler whose module is not in [sys.modules] raises
    [KeyError] and leaves the process as it was: no task function is
    installed and no receiver is connected. *)
Theorem unloaded_module_raises signal filter options func p :
  sys_modules p !! func_module func = None →
  async_receiver signal filter options func p = (Raise KeyError, p).
Proof.
  intros Hnone. unfold async_receiver, _create_async_task_wrapper, install.
  unfold mbind, Exec_bind. by rewrite Hnone.
Qed.

Lemma unloaded_module_raises_witness :
  sys_modules idle !! func_module
    {| func_name := "handler"; func_module := "shop.signals";
       func_body := Def (λ _ _ _, Ok VNone) |} = None ∧
  async_receiver (One "post_save") None no_options
    {| func_name := "handler"; func_module := "shop.signals";
       func_body := Def (λ _ _ _, Ok VNone) |} idle
  = (Raise KeyError, idle).
Proof.
  split; [reflexivity|].
  apply (unloaded_module_raises (One "post_save") None no_options
           {| func_name := "handler"; func_module := "shop.signals";
              func_body := Def (λ _ _ _, Ok VNone) |} idle).
  reflexivity.
Defined.

(** A dispatch that no receiver hears calls nothing. *)
Lemma send_unheard s sender named (q : Process) :
  heard q s sender = [] →
  (send s sender named q).2 = q ∧
  (deliverable s sender named → send s sender named q = (Ok tt, q)).
Proof.
  intros Hdeaf. split.
  - unfold send. destruct (bool_decide (_ ∨ _)); [done|].
    destruct (receivers_of q s) as [|c cs] eqn:Hrs; [done|].
    destruct (use_caching s && _); [done|].
    rewrite <- Hrs. fold (heard q s sender). by rewrite Hdeaf.
  - intros Hdeliverable. by rewrite send_deliverable, Hdeaf.
Qed.

(** X17.  The sender filter is honoured: after a handler is decorated for
    the sender [S] and a signal that had no receiver, sending that signal
    with any other sender, or with none, calls no wrapper and leaves the
    process as it was; the call returns whenever it binds its arguments
    and reaches the receivers. *)
Theorem other_senders_not_heard signal S options func p ns s sender named :
  sys_modules p !! func_module func = Some ns →
  ids_fresh p →
  receivers_of p s = [] →
  sender ≠ Some S →
  ∃ p', async_receiver signal (Some S) options func p = (Ok func, p') ∧
        ∀ q, receivers q = receivers p' →
             (send s sender named q).2 = q ∧
             (deliverable s sender named → send s sender named q = (Ok tt, q)).
Proof.
  intros Hns Hfresh Hempty Hother.
  destruct (async_receiver_exact signal (Some S) options func p ns Hns Hfresh)
    as (p' & Hrun & _ & _ & _ & _ & Hconn).
  exists p'. split; [done|]. intros q Hq. apply send_unheard.
  unfold heard.
  assert (receivers_of q s = receivers_of p' s) as -> by (unfold receivers_of; by rewrite Hq).
  rewrite Hconn, Hempty.
  assert (hears (Some S) sender = false) as Hdeaf.
  { unfold hears. rewrite bool_decide_eq_false_2 by done.
    by rewrite bool_decide_eq_false_2 by done. }
  destruct (_ && _); [|done].
  simpl. by rewrite filter_cons_False by (simpl; by rewrite Hdeaf).
Qed.

Lemma other_senders_not_heard_witness :
  sys_modules idle !! func_module noop_handler = Some ∅ ∧
  ids_fresh idle ∧
  receivers_of idle "post_save" = [] ∧
  Some django_q_task ≠ Some article ∧
  ∃ p', async_receiver (One "post_save") (Some article) held_strongly noop_handler idle
          = (Ok noop_handler, p') ∧
        ∀ q, receivers q = receivers p' →
             (send "post_save" (Some django_q_task) saved_named q).2 = q ∧
             (deliverable "post_save" (Some django_q_task) saved_named →
              send "post_save" (Some django_q_task) saved_named q = (Ok tt, q)).
Proof.
  assert (Some django_q_task ≠ Some article) as Hother by discriminate.
  split; [reflexivity|]. split; [exact idle_fresh|]. split; [reflexivity|].
  split; [exact Hother|].
  apply (other_senders_not_heard (One "post_save") article held_strongly noop_handler
           idle ∅ "post_save" (Some django_q_task) saved_named eq_refl idle_fresh
           eq_refl Hother).
Defined.

(** ** Decorating more than once *)

Lemma module_stays_loaded (p p' : Process) (m m' : string) (ns : gmap string Attr)
    (ns' : gmap string Attr) :
  sys_modules p' = <[m := ns']> (sys_modules p) →
  sys_modules p !! m' = Some ns →
  ∃ ns1, sys_modules p' !! m' = Some ns1.
Proof.
  intros -> Hm'. destruct (decide (m = m')) as [->|Hne].
  - rewrite lookup_insert_eq. by eauto.
  - rewrite lookup_insert_ne by done. by eauto.
Qed.





(** ** From the decoration to the handler call *)


